(** * google-sheets-mcp-server: the tool-dispatch gateway

    A shallow embedding of [src/index.ts] (the tool catalogue and the
    [CallToolRequestSchema] handler) and of the [GoogleSheetsClient] class
    it drives, followed by the properties of the gateway.

    Layout:
    - [JsNumber], [JsValue]: the JSON-shaped values the gateway moves around,
      with the ECMAScript operations the code applies to them
      (truthiness, [ToString] of template literals, property access,
      object spread, [JSON.stringify (v, null, 2)]);
    - [Exc], [ClientM]: exceptions and the effects on the outside world
      (requests to the remote service, [console.error], the clock);
    - [GoogleSheetsClient]: the fourteen backend operations;
    - [Catalogue]: the [tools] array of the [ListToolsRequestSchema] handler;
    - [Gateway]: the [switch] of the [CallToolRequestSchema] handler and its
      [try]/[catch];
    - the theorems. *)

From Stdlib Require Import String Ascii List ZArith Lia Bool.
From stdpp Require Import base option list strings gmap pretty.

Local Open Scope string_scope.
Set Warnings "-register-all".

(** ** Numbers

    Arguments and payloads carry IEEE doubles. The gateway never computes
    with them: it passes them on, prints them, tests them for truthiness and
    compares one with zero. These operations are kept abstract. *)

Class JsNumber := {
  Num : Type;
  (** the double denoting an integer (array lengths, literals, codes) *)
  num_of_Z : Z -> Num;
  (** [Number::toString]: "NaN" and "Infinity" included *)
  num_to_string : Num -> string;
  (** neither NaN nor an infinity *)
  num_finite : Num -> bool;
  (** [ToBoolean]: false exactly on +0, -0 and NaN *)
  num_truthy : Num -> bool;
  (** [n > 0] *)
  num_pos : Num -> bool;
  (** [StringToNumber] *)
  str_to_num : string -> Num
}.

(** ** Values

    Strings are sequences of code units, here restricted to 0..255.
    An object is the list of its own enumerable properties in iteration
    order; a property looked up twice resolves to its first entry. *)

Inductive JsValue `{JsNumber} : Type :=
| JUndefined
| JNull
| JBool (b : bool)
| JNumber (n : Num)
| JString (s : string)
| JArray (items : list JsValue)
| JObject (props : list (string * JsValue)).

Definition nl : string := String "010"%char EmptyString.
Definition dq : string := String "034"%char EmptyString.

(** [Array.prototype.join] and its like. *)
Fixpoint join (sep : string) (l : list string) : string :=
  match l with
  | [] => ""
  | [x] => x
  | x :: rest => x +:+ sep +:+ join sep rest
  end.

Section Values.
Context `{JsNumber}.

(** [ToBoolean]. *)
Definition js_truthy (v : JsValue) : bool :=
  match v with
  | JUndefined | JNull => false
  | JBool b => b
  | JNumber n => num_truthy n
  | JString s => negb (String.eqb s "")
  | JArray _ | JObject _ => true
  end.

(** [a || b] on values. *)
Definition js_or (a b : JsValue) : JsValue := if js_truthy a then a else b.

(** *** JSON.stringify *)

Definition hex_digit (n : N) : string :=
  match String.get (N.to_nat n) "0123456789abcdef" with
  | Some c => String c EmptyString
  | None => "0"
  end.

(** One code unit of [QuoteJSONString]. *)
Definition json_escape_char (c : ascii) : string :=
  let n := N_of_ascii c in
  if (n =? 8)%N then "\b"
  else if (n =? 9)%N then "\t"
  else if (n =? 10)%N then "\n"
  else if (n =? 12)%N then "\f"
  else if (n =? 13)%N then "\r"
  else if (n =? 34)%N then "\" +:+ dq
  else if (n =? 92)%N then "\\"
  else if (n <? 32)%N then "\u00" +:+ hex_digit (n / 16) +:+ hex_digit (n mod 16)
  else String c EmptyString.

Fixpoint json_escape (s : string) : string :=
  match s with
  | EmptyString => ""
  | String c rest => json_escape_char c +:+ json_escape rest
  end.

Definition json_quote (s : string) : string := dq +:+ json_escape s +:+ dq.

(** [SerializeJSONProperty] with gap of two spaces; [indent] is the
    indentation of the enclosing holder. [None] is the [undefined] result. *)
Fixpoint json_serialize (indent : string) (v : JsValue) : option string :=
  match v with
  | JUndefined => None
  | JNull => Some "null"
  | JBool true => Some "true"
  | JBool false => Some "false"
  | JNumber n => Some (if num_finite n then num_to_string n else "null")
  | JString s => Some (json_quote s)
  | JArray items =>
      let inner := indent +:+ "  " in
      let partial :=
        map (fun x => match json_serialize inner x with
                      | Some s => s
                      | None => "null"
                      end) items in
      match partial with
      | [] => Some "[]"
      | _ => Some ("[" +:+ nl +:+ inner +:+ join ("," +:+ nl +:+ inner) partial
                   +:+ nl +:+ indent +:+ "]")
      end
  | JObject props =>
      let inner := indent +:+ "  " in
      let partial :=
        omap (fun p => match p with
                       | (k, x) =>
                           match json_serialize inner x with
                           | Some s => Some (json_quote k +:+ ": " +:+ s)
                           | None => None
                           end
                       end) props in
      match partial with
      | [] => Some "{}"
      | _ => Some ("{" +:+ nl +:+ inner +:+ join ("," +:+ nl +:+ inner) partial
                   +:+ nl +:+ indent +:+ "}")
      end
  end.

(** [JSON.stringify (v, null, 2)]. *)
Definition JSON_stringify (v : JsValue) : option string := json_serialize "" v.

End Values.

(** ** Exceptions

    A thrown value is represented, like any other value, by the properties
    that can be read off it: an [Error] object is the bag holding its
    [message], [stack] and whatever else the thrower attached. *)

Inductive Exc `{JsNumber} (A : Type) : Type :=
| Return (a : A)
| Throw (error : JsValue).
Arguments Return {_ _} a.
Arguments Throw {_ _} error.

(** The [TypeError]s the engine itself raises in this program. Their texts
    differ between engines and versions and are left to [JsEngine]. *)
Inductive TypeErrorKind : Type :=
| NotAFunction (callee : string)
| CannotReadProperty (of_null : bool) (property : string)
| CannotConvertToPrimitive.

Class JsEngine := {
  typeErrorMessage : TypeErrorKind -> string;
  typeErrorStack : TypeErrorKind -> string
}.

(** First entry of an association list under a key. *)
Fixpoint assoc {A : Type} (k : string) (l : list (string * A)) : option A :=
  match l with
  | [] => None
  | (k', a) :: rest => if String.eqb k k' then Some a else assoc k rest
  end.

(** A step applied to the elements of a list from left to right, up to the
    first that throws. *)
Fixpoint traverse `{JsNumber} {A B : Type} (f : A -> Exc B) (l : list A)
  : Exc (list B) :=
  match l with
  | [] => Return []
  | x :: rest =>
      match f x with
      | Throw error => Throw error
      | Return b =>
          match traverse f rest with
          | Return bs => Return (b :: bs)
          | Throw error => Throw error
          end
      end
  end.

Section Properties.
Context `{JsNumber} `{JsEngine}.

Definition TypeError (kind : TypeErrorKind) : JsValue :=
  JObject [("message", JString (typeErrorMessage kind));
           ("stack", JString (typeErrorStack kind))].

(** [ToString], as applied by template literals. An array prints as its
    elements joined by commas, [null] and [undefined] elements as nothing.
    A plain object prints as [[object Object]] through the method it
    inherits, unless a [toString] key of its own hides that method: what
    the key holds is no function, the inherited [valueOf] only gives the
    object back, and the conversion raises. *)
Fixpoint js_to_string (v : JsValue) : Exc string :=
  match v with
  | JUndefined => Return "undefined"
  | JNull => Return "null"
  | JBool true => Return "true"
  | JBool false => Return "false"
  | JNumber n => Return (num_to_string n)
  | JString s => Return s
  | JArray items =>
      match traverse (fun x => match x with
                               | JUndefined | JNull => Return ""
                               | _ => js_to_string x
                               end) items with
      | Return parts => Return (join "," parts)
      | Throw error => Throw error
      end
  | JObject props =>
      match assoc "toString" props with
      | Some _ => Throw (TypeError CannotConvertToPrimitive)
      | None => Return "[object Object]"
      end
  end.

(** [v > 0]: [ToPrimitive] with hint number, which for arrays and plain
    objects ends in the same string as [ToString] or raises as it does,
    then [ToNumber]. *)
Definition js_gt_zero (v : JsValue) : Exc bool :=
  match v with
  | JUndefined | JNull => Return false
  | JBool b => Return b
  | JNumber n => Return (num_pos n)
  | JString s => Return (num_pos (str_to_num s))
  | JArray _ | JObject _ =>
      match js_to_string v with
      | Return s => Return (num_pos (str_to_num s))
      | Throw error => Throw error
      end
  end.

(** [v.p] for the property names this program reads (none of them is an
    array index, and [length] is the only inherited one). *)
Definition js_get (v : JsValue) (p : string) : Exc JsValue :=
  match v with
  | JUndefined => Throw (TypeError (CannotReadProperty false p))
  | JNull => Throw (TypeError (CannotReadProperty true p))
  | JObject props => Return (default JUndefined (assoc p props))
  | JArray items =>
      Return (if String.eqb p "length"
              then JNumber (num_of_Z (Z.of_nat (length items))) else JUndefined)
  | JString s =>
      Return (if String.eqb p "length"
              then JNumber (num_of_Z (Z.of_nat (String.length s))) else JUndefined)
  | JBool _ | JNumber _ => Return JUndefined
  end.

(** [v?.p]. *)
Definition js_get_opt (v : JsValue) (p : string) : Exc JsValue :=
  match v with
  | JUndefined | JNull => Return JUndefined
  | _ => js_get v p
  end.

(** [callee.map (f)], [callee] being the source text of the receiver. *)
Definition js_map (callee : string) (v : JsValue) (f : JsValue -> JsValue)
  : Exc JsValue :=
  match v with
  | JArray items => Return (JArray (map f items))
  | _ => Throw (TypeError (NotAFunction (callee +:+ ".map")))
  end.

(** A parameter declared with a default: [undefined] selects the default. *)
Definition or_default (v d : JsValue) : JsValue :=
  match v with
  | JUndefined => d
  | _ => v
  end.

(** *** Object spread

    Own property keys iterate array indices first, in ascending order, then
    the other keys in creation order. *)

Fixpoint parse_digits (acc : N) (s : string) : option N :=
  match s with
  | EmptyString => Some acc
  | String c rest =>
      let n := N_of_ascii c in
      if ((48 <=? n) && (n <=? 57))%N
      then parse_digits (acc * 10 + (n - 48)) rest
      else None
  end.

(** The array index a key denotes: a canonical numeral below 2^32 - 1. *)
Definition array_index (k : string) : option N :=
  match k with
  | EmptyString => None
  | _ =>
      match parse_digits 0 k with
      | Some n => if String.eqb (pretty n) k && (n <? 4294967295)%N
                  then Some n else None
      | None => None
      end
  end.

(** A fresh index key goes before the first key that is no index or a
    larger one. *)
Fixpoint insert_index {A : Type} (n : N) (k : string) (a : A)
    (l : list (string * A)) : list (string * A) :=
  match l with
  | [] => [(k, a)]
  | (k', a') :: rest =>
      match array_index k' with
      | Some n' => if (n' <? n)%N then (k', a') :: insert_index n k a rest
                   else (k, a) :: l
      | None => (k, a) :: l
      end
  end.

Fixpoint replace_assoc {A : Type} (k : string) (a : A)
    (l : list (string * A)) : list (string * A) :=
  match l with
  | [] => []
  | (k', a') :: rest =>
      if String.eqb k k' then (k', a) :: rest
      else (k', a') :: replace_assoc k a rest
  end.

(** [CreateDataProperty] on a plain object. *)
Definition define_property (k : string) (v : JsValue)
    (props : list (string * JsValue)) : list (string * JsValue) :=
  match assoc k props with
  | Some _ => replace_assoc k v props
  | None =>
      match array_index k with
      | Some n => insert_index n k v props
      | None => props ++ [(k, v)]
      end
  end.

(** The own enumerable properties a spread copies out of a value. *)
Definition own_enumerable (v : JsValue) : list (string * JsValue) :=
  match v with
  | JObject props => props
  | JArray items => imap (fun i x => (pretty i, x)) items
  | JString s =>
      imap (fun i c => (pretty i, JString (String c EmptyString)))
           (list_ascii_of_string s)
  | JUndefined | JNull | JBool _ | JNumber _ => []
  end.

(** [{ ...props, ...v }]. *)
Definition js_spread (props : list (string * JsValue)) (v : JsValue)
  : list (string * JsValue) :=
  fold_left (fun acc kv => define_property (fst kv) (snd kv) acc)
            (own_enumerable v) props.

End Properties.

(** ** The outside world

    Everything the server touches beyond its own values: the remote
    spreadsheet and drive services behind the two API clients, the error
    console and the clock. A request either resolves with a response or
    rejects with a reason, and may change the world. *)

Inductive Endpoint : Type :=
| spreadsheets_create
| spreadsheets_get
| spreadsheets_batchUpdate
| spreadsheets_values_update
| spreadsheets_values_append
| spreadsheets_values_get
| spreadsheets_values_clear
| files_list
| files_delete
| permissions_create.

Inductive Outcome `{JsNumber} : Type :=
| Resolved (response : JsValue)
| Rejected (reason : JsValue).

Class Outside `{JsNumber} := {
  World : Type;
  (** [await client.endpoint (params)] *)
  remote : Endpoint -> JsValue -> World -> Outcome * World;
  (** [console.error (label, error)] *)
  console_error : string -> JsValue -> World -> World;
  (** [new Date ().toISOString ()] *)
  now_iso : World -> string
}.

(** ** Computations: exceptions over the world *)

Definition ClientM `{Outside} (A : Type) : Type := World -> Exc A * World.

Section Monad.
Context `{Outside}.

Definition ret {A : Type} (a : A) : ClientM A := fun w => (Return a, w).

Definition throw {A : Type} (error : JsValue) : ClientM A :=
  fun w => (Throw error, w).

Definition bind {A B : Type} (m : ClientM A) (k : A -> ClientM B) : ClientM B :=
  fun w =>
    match m w with
    | (Return a, w') => k a w'
    | (Throw error, w') => (Throw error, w')
    end.

(** [try { body } catch (error) { handler }] *)
Definition try_catch {A : Type} (body : ClientM A)
    (handler : JsValue -> ClientM A) : ClientM A :=
  fun w =>
    match body w with
    | (Return a, w') => (Return a, w')
    | (Throw error, w') => handler error w'
    end.

(** A pure step that may throw. *)
Definition lift {A : Type} (e : Exc A) : ClientM A := fun w => (e, w).

Definition await (endpoint : Endpoint) (params : JsValue) : ClientM JsValue :=
  fun w =>
    match remote endpoint params w with
    | (Resolved response, w') => (Return response, w')
    | (Rejected reason, w') => (Throw reason, w')
    end.

Definition log_error (label : string) (error : JsValue) : ClientM unit :=
  fun w => (Return tt, console_error label error w).

Definition clock : ClientM string := fun w => (Return (now_iso w), w).

End Monad.

Declare Scope client_scope.
Delimit Scope client_scope with client.
Notation "'let*' x ':=' m 'in' k" := (bind m (fun x => k))
  (at level 10, x name, m at level 100, k at level 200) : client_scope.
Notation "m ';;' k" := (bind m (fun _ => k))
  (at level 100, k at level 200, right associativity) : client_scope.

(** ** GoogleSheetsClient

    The authenticated client handle. Its construction is outside the
    gateway; what the operations read of it is the project id and the kind
    of credential held in [auth]. *)

Inductive Auth : Type :=
| ApiKey (key : string)
| GoogleAuth
| OAuth2
| NoAuth.

Record GoogleSheetsClient : Type := {
  projectId : string;
  auth : Auth
}.

Definition mimeQuery : string :=
  "mimeType='application/vnd.google-apps.spreadsheet'".

Section Client.
Context `{Outside} `{JsEngine}.
Variable this : GoogleSheetsClient.
Local Open Scope client_scope.

Definition num (z : Z) : JsValue := JNumber (num_of_Z z).

Definition createSpreadsheet (title sheets : JsValue) : ClientM JsValue :=
  try_catch
    (let resource := [("properties", JObject [("title", title)])] in
     let* resource :=
       (if js_truthy sheets
        then let* len := lift (js_get sheets "length") in
             let* positive := lift (js_gt_zero len) in
             if positive
             then let* mapped :=
                    lift (js_map "sheets" sheets (fun sheetName =>
                      JObject [("properties", JObject [("title", sheetName)])])) in
                  ret (resource ++ [("sheets", mapped)])%list
             else ret resource
        else ret resource) in
     let* response :=
       await spreadsheets_create (JObject [("requestBody", JObject resource)]) in
     let* data := lift (js_get response "data") in
     let* spreadsheetId := lift (js_get data "spreadsheetId") in
     let* printed := lift (js_to_string spreadsheetId) in
     ret (JObject
            [("spreadsheetId", spreadsheetId);
             ("title", title);
             ("url", JString ("https://docs.google.com/spreadsheets/d/"
                              +:+ printed +:+ "/edit"));
             ("spreadsheet", data)]))
    (fun error =>
       log_error "Error creating spreadsheet:" error;;
       let* message := lift (js_get error "message") in
       ret (JObject [("error", message)])).

Definition getSpreadsheet (spreadsheetId includeGridData : JsValue)
  : ClientM JsValue :=
  let includeGridData := or_default includeGridData (JBool false) in
  try_catch
    (let* response :=
       await spreadsheets_get
         (JObject [("spreadsheetId", spreadsheetId);
                   ("includeGridData", includeGridData)]) in
     lift (js_get response "data"))
    (fun error =>
       log_error "Error getting spreadsheet:" error;;
       let* message := lift (js_get error "message") in
       ret (JObject [("error", message)])).

Definition updateValues (spreadsheetId range values valueInputOption : JsValue)
  : ClientM JsValue :=
  let valueInputOption := or_default valueInputOption (JString "USER_ENTERED") in
  try_catch
    (let* response :=
       await spreadsheets_values_update
         (JObject [("spreadsheetId", spreadsheetId);
                   ("range", range);
                   ("valueInputOption", valueInputOption);
                   ("requestBody", JObject [("values", values)])]) in
     lift (js_get response "data"))
    (fun error =>
       log_error "Error updating values:" error;;
       let* message := lift (js_get error "message") in
       ret (JObject [("error", message)])).

Definition appendValues (spreadsheetId range values valueInputOption : JsValue)
  : ClientM JsValue :=
  let valueInputOption := or_default valueInputOption (JString "USER_ENTERED") in
  try_catch
    (let* response :=
       await spreadsheets_values_append
         (JObject [("spreadsheetId", spreadsheetId);
                   ("range", range);
                   ("valueInputOption", valueInputOption);
                   ("requestBody", JObject [("values", values)])]) in
     lift (js_get response "data"))
    (fun error =>
       log_error "Error appending values:" error;;
       let* message := lift (js_get error "message") in
       ret (JObject [("error", message)])).

Definition getValues (spreadsheetId range : JsValue) : ClientM JsValue :=
  try_catch
    (let* response :=
       await spreadsheets_values_get
         (JObject [("spreadsheetId", spreadsheetId); ("range", range)]) in
     lift (js_get response "data"))
    (fun error =>
       log_error "Error getting values:" error;;
       let* message := lift (js_get error "message") in
       ret (JObject [("error", message)])).

Definition clearValues (spreadsheetId range : JsValue) : ClientM JsValue :=
  try_catch
    (let* response :=
       await spreadsheets_values_clear
         (JObject [("spreadsheetId", spreadsheetId); ("range", range)]) in
     lift (js_get response "data"))
    (fun error =>
       log_error "Error clearing values:" error;;
       let* message := lift (js_get error "message") in
       ret (JObject [("error", message)])).

Definition addSheet (spreadsheetId sheetTitle : JsValue) : ClientM JsValue :=
  try_catch
    (let* response :=
       await spreadsheets_batchUpdate
         (JObject
            [("spreadsheetId", spreadsheetId);
             ("requestBody", JObject
                [("requests", JArray
                   [JObject
                      [("addSheet", JObject
                          [("properties", JObject [("title", sheetTitle)])])]])])]) in
     lift (js_get response "data"))
    (fun error =>
       log_error "Error adding sheet:" error;;
       let* message := lift (js_get error "message") in
       ret (JObject [("error", message)])).

Definition deleteSheet (spreadsheetId sheetId : JsValue) : ClientM JsValue :=
  try_catch
    (let* response :=
       await spreadsheets_batchUpdate
         (JObject
            [("spreadsheetId", spreadsheetId);
             ("requestBody", JObject
                [("requests", JArray
                   [JObject
                      [("deleteSheet", JObject [("sheetId", sheetId)])]])])]) in
     lift (js_get response "data"))
    (fun error =>
       log_error "Error deleting sheet:" error;;
       let* message := lift (js_get error "message") in
       ret (JObject [("error", message)])).

Definition listSpreadsheets (pageSize pageToken : JsValue) : ClientM JsValue :=
  let pageSize := or_default pageSize (num 10) in
  try_catch
    (let* response :=
       await files_list
         (JObject
            [("pageSize", pageSize);
             ("pageToken", pageToken);
             ("q", JString mimeQuery);
             ("fields", JString
                "nextPageToken, files(id, name, createdTime, modifiedTime, webViewLink)")]) in
     let* data := lift (js_get response "data") in
     let* files := lift (js_get data "files") in
     let* nextPageToken := lift (js_get data "nextPageToken") in
     ret (JObject [("spreadsheets", files); ("nextPageToken", nextPageToken)]))
    (fun error =>
       log_error "Error listing spreadsheets:" error;;
       let* message := lift (js_get error "message") in
       ret (JObject [("error", message)])).

Definition deleteSpreadsheet (spreadsheetId : JsValue) : ClientM JsValue :=
  try_catch
    (await files_delete (JObject [("fileId", spreadsheetId)]);;
     let* printed := lift (js_to_string spreadsheetId) in
     ret (JObject
            [("success", JBool true);
             ("spreadsheetId", spreadsheetId);
             ("message", JString ("Spreadsheet " +:+ printed
                                  +:+ " successfully deleted"))]))
    (fun error =>
       log_error "Error deleting spreadsheet:" error;;
       let* message := lift (js_get error "message") in
       ret (JObject [("success", JBool false); ("error", message)])).

Definition shareSpreadsheet (spreadsheetId emailAddress role : JsValue)
  : ClientM JsValue :=
  let role := or_default role (JString "reader") in
  try_catch
    (let* response :=
       await permissions_create
         (JObject
            [("fileId", spreadsheetId);
             ("requestBody", JObject
                [("type", JString "user");
                 ("role", role);
                 ("emailAddress", emailAddress)])]) in
     let* data := lift (js_get response "data") in
     ret (JObject
            [("success", JBool true);
             ("spreadsheetId", spreadsheetId);
             ("permission", data)]))
    (fun error =>
       log_error "Error sharing spreadsheet:" error;;
       let* message := lift (js_get error "message") in
       ret (JObject [("success", JBool false); ("error", message)])).

Definition searchSpreadsheets (query pageSize pageToken : JsValue)
  : ClientM JsValue :=
  let pageSize := or_default pageSize (num 10) in
  try_catch
    (let* printed := lift (js_to_string query) in
     let* response :=
       await files_list
         (JObject
            [("pageSize", pageSize);
             ("pageToken", pageToken);
             ("q", JString (mimeQuery +:+ " and name contains '"
                            +:+ printed +:+ "'"));
             ("fields", JString
                "nextPageToken, files(id, name, createdTime, modifiedTime, webViewLink)")]) in
     let* data := lift (js_get response "data") in
     let* files := lift (js_get data "files") in
     let* nextPageToken := lift (js_get data "nextPageToken") in
     ret (JObject [("spreadsheets", files); ("nextPageToken", nextPageToken)]))
    (fun error =>
       log_error "Error searching spreadsheets:" error;;
       let* message := lift (js_get error "message") in
       ret (JObject [("error", message)])).

Definition formatCells (spreadsheetId sheetId range format : JsValue)
  : ClientM JsValue :=
  try_catch
    (let* response :=
       await spreadsheets_batchUpdate
         (JObject
            [("spreadsheetId", spreadsheetId);
             ("requestBody", JObject
                [("requests", JArray
                   [JObject
                      [("repeatCell", JObject
                          [("range", JObject
                              (js_spread [("sheetId", sheetId)] range));
                           ("cell", JObject [("userEnteredFormat", format)]);
                           ("fields", JString "userEnteredFormat")])]])])]) in
     lift (js_get response "data"))
    (fun error =>
       log_error "Error formatting cells:" error;;
       let* message := lift (js_get error "message") in
       ret (JObject [("error", message)])).

Definition getAuthType : string :=
  match auth this with
  | ApiKey _ => "API Key"
  | GoogleAuth => "Service Account"
  | OAuth2 => "OAuth2"
  | NoAuth => "Unknown"
  end.

Definition verifyConnection : ClientM JsValue :=
  try_catch
    (let* response :=
       await files_list
         (JObject
            [("pageSize", num 1);
             ("q", JString mimeQuery);
             ("fields", JString "files(id, name)")]) in
     let* timestamp := clock in
     let* data := lift (js_get response "data") in
     let* files := lift (js_get data "files") in
     let* count := lift (js_get_opt files "length") in
     ret (JObject
            [("connected", JBool true);
             ("projectId", JString (projectId this));
             ("timestamp", JString timestamp);
             ("details", JObject
                [("authType", JString getAuthType);
                 ("apiVersion", JString "v4");
                 ("spreadsheetCount", js_or count (num 0))])]))
    (fun error =>
       log_error "Error verifying Google Sheets API connection:" error;;
       let* timestamp := clock in
       let* message := lift (js_get error "message") in
       let* code := lift (js_get error "code") in
       let* details := lift (js_get error "details") in
       let* stack := lift (js_get error "stack") in
       ret (JObject
              [("connected", JBool false);
               ("projectId", JString (projectId this));
               ("timestamp", JString timestamp);
               ("error", JObject
                  [("message", message);
                   ("code", js_or code (JString "UNKNOWN_ERROR"));
                   ("details", js_or details stack)])])).

End Client.

(** *** The method table

    [this.googleSheets.m (a, b, ...)] looks [m] up on the client object and
    calls what it finds: parameters beyond the arguments passed are
    [undefined], and a name the class does not define is no function.
    The table lists the operations of the class body in source order; its
    two private helpers take no part in dispatch. *)

Section Methods.
Context `{Outside} `{JsEngine}.
Variable this : GoogleSheetsClient.

Definition param (i : nat) (args : list JsValue) : JsValue :=
  nth i args JUndefined.

Definition methods : list (string * (list JsValue -> ClientM JsValue)) :=
  [("createSpreadsheet", fun a => createSpreadsheet (param 0 a) (param 1 a));
   ("getSpreadsheet", fun a => getSpreadsheet (param 0 a) (param 1 a));
   ("updateValues",
     fun a => updateValues (param 0 a) (param 1 a) (param 2 a) (param 3 a));
   ("appendValues",
     fun a => appendValues (param 0 a) (param 1 a) (param 2 a) (param 3 a));
   ("getValues", fun a => getValues (param 0 a) (param 1 a));
   ("clearValues", fun a => clearValues (param 0 a) (param 1 a));
   ("addSheet", fun a => addSheet (param 0 a) (param 1 a));
   ("deleteSheet", fun a => deleteSheet (param 0 a) (param 1 a));
   ("listSpreadsheets", fun a => listSpreadsheets (param 0 a) (param 1 a));
   ("deleteSpreadsheet", fun a => deleteSpreadsheet (param 0 a));
   ("shareSpreadsheet",
     fun a => shareSpreadsheet (param 0 a) (param 1 a) (param 2 a));
   ("searchSpreadsheets",
     fun a => searchSpreadsheets (param 0 a) (param 1 a) (param 2 a));
   ("formatCells",
     fun a => formatCells (param 0 a) (param 1 a) (param 2 a) (param 3 a));
   ("verifyConnection", fun _ => verifyConnection this)].

Definition invoke (receiver method : string) (args : list JsValue)
  : ClientM JsValue :=
  match assoc method methods with
  | Some f => f args
  | None => throw (TypeError (NotAFunction (receiver +:+ "." +:+ method)))
  end.

End Methods.

(** ** The tool catalogue

    A schema node is the object literal of the source: each of its keys may
    be absent. *)

Inductive SchemaType : Type :=
| string_t | number_t | boolean_t | array_t | object_t.

Module Schema.
Inductive t : Type := make {
  type : option SchemaType;
  description : option string;
  items : option t;
  properties : option (list (string * t));
  required : option (list string)
}.
End Schema.

Module Tool.
Record t : Type := {
  name : string;
  description : string;
  inputSchema : Schema.t
}.
End Tool.

(** [{ type, description }] *)
Definition field (ty : SchemaType) (description : string) : Schema.t :=
  Schema.make (Some ty) (Some description) None None None.

(** [{ type }] *)
Definition bare (ty : SchemaType) : Schema.t :=
  Schema.make (Some ty) None None None None.

(** [{ type: 'array', items, description }] *)
Definition array_of (items : Schema.t) (description : string) : Schema.t :=
  Schema.make (Some array_t) (Some description) (Some items) None None.

(** [{ type: 'object', properties, required }], [required] possibly absent *)
Definition input (properties : list (string * Schema.t))
    (required : option (list string)) : Schema.t :=
  Schema.make (Some object_t) None None (Some properties) required.

(** [{ type: 'object', description, properties, required }] *)
Definition object_of (description : string)
    (properties : list (string * Schema.t)) (required : list string) : Schema.t :=
  Schema.make (Some object_t) (Some description) None (Some properties)
              (Some required).

(** [{}] *)
Definition anything : Schema.t := Schema.make None None None None None.

Definition tools : list Tool.t :=
  [ {| Tool.name := "google_sheets_create";
       Tool.description := "Create a new Google Sheet";
       Tool.inputSchema := input
         [("title", field string_t "Title of the spreadsheet");
          ("sheets", array_of (bare string_t)
                       "Array of sheet names to create (optional)")]
         (Some ["title"]) |};
    {| Tool.name := "google_sheets_get";
       Tool.description := "Get a Google Sheet by ID";
       Tool.inputSchema := input
         [("spreadsheetId", field string_t "ID of the spreadsheet to retrieve");
          ("includeGridData", field boolean_t
             "Whether to include grid data (cell values)")]
         (Some ["spreadsheetId"]) |};
    {| Tool.name := "google_sheets_update_values";
       Tool.description := "Update values in a Google Sheet";
       Tool.inputSchema := input
         [("spreadsheetId", field string_t "ID of the spreadsheet to update");
          ("range", field string_t
             ("Range to update (e.g., " +:+ dq +:+ "Sheet1!A1:B2" +:+ dq +:+ ")"));
          ("values", field array_t "2D array of values to update");
          ("valueInputOption", field string_t
             "How to interpret the values (RAW or USER_ENTERED)")]
         (Some ["spreadsheetId"; "range"; "values"]) |};
    {| Tool.name := "google_sheets_append_values";
       Tool.description := "Append values to a Google Sheet";
       Tool.inputSchema := input
         [("spreadsheetId", field string_t "ID of the spreadsheet to update");
          ("range", field string_t
             ("Range to append to (e.g., " +:+ dq +:+ "Sheet1!A1" +:+ dq +:+ ")"));
          ("values", field array_t "2D array of values to append");
          ("valueInputOption", field string_t
             "How to interpret the values (RAW or USER_ENTERED)")]
         (Some ["spreadsheetId"; "range"; "values"]) |};
    {| Tool.name := "google_sheets_get_values";
       Tool.description := "Get values from a Google Sheet";
       Tool.inputSchema := input
         [("spreadsheetId", field string_t "ID of the spreadsheet to read");
          ("range", field string_t
             ("Range to read (e.g., " +:+ dq +:+ "Sheet1!A1:B2" +:+ dq +:+ ")"))]
         (Some ["spreadsheetId"; "range"]) |};
    {| Tool.name := "google_sheets_clear_values";
       Tool.description := "Clear values from a Google Sheet";
       Tool.inputSchema := input
         [("spreadsheetId", field string_t "ID of the spreadsheet to clear");
          ("range", field string_t
             ("Range to clear (e.g., " +:+ dq +:+ "Sheet1!A1:B2" +:+ dq +:+ ")"))]
         (Some ["spreadsheetId"; "range"]) |};
    {| Tool.name := "google_sheets_add_sheet";
       Tool.description := "Add a new sheet to an existing spreadsheet";
       Tool.inputSchema := input
         [("spreadsheetId", field string_t "ID of the spreadsheet to update");
          ("sheetTitle", field string_t "Title of the new sheet")]
         (Some ["spreadsheetId"; "sheetTitle"]) |};
    {| Tool.name := "google_sheets_delete_sheet";
       Tool.description := "Delete a sheet from a spreadsheet";
       Tool.inputSchema := input
         [("spreadsheetId", field string_t "ID of the spreadsheet");
          ("sheetId", field number_t "ID of the sheet to delete")]
         (Some ["spreadsheetId"; "sheetId"]) |};
    {| Tool.name := "google_sheets_list";
       Tool.description :=
         "List Google Sheets accessible to the authenticated user";
       Tool.inputSchema := input
         [("pageSize", field number_t
             "Number of spreadsheets to return (default: 10)");
          ("pageToken", field string_t "Token for pagination")]
         None |};
    {| Tool.name := "google_sheets_delete";
       Tool.description := "Delete a Google Sheet";
       Tool.inputSchema := input
         [("spreadsheetId", field string_t "ID of the spreadsheet to delete")]
         (Some ["spreadsheetId"]) |};
    {| Tool.name := "google_sheets_share";
       Tool.description := "Share a Google Sheet with specific users";
       Tool.inputSchema := input
         [("spreadsheetId", field string_t "ID of the spreadsheet to share");
          ("emailAddress", field string_t "Email address to share with");
          ("role", field string_t "Role to assign (reader, writer, commenter)")]
         (Some ["spreadsheetId"; "emailAddress"]) |};
    {| Tool.name := "google_sheets_search";
       Tool.description := "Search for Google Sheets by title";
       Tool.inputSchema := input
         [("query", field string_t "Search query for spreadsheet title");
          ("pageSize", field number_t
             "Number of results to return (default: 10)");
          ("pageToken", field string_t "Token for pagination")]
         (Some ["query"]) |};
    {| Tool.name := "google_sheets_format_cells";
       Tool.description := "Format cells in a Google Sheet";
       Tool.inputSchema := input
         [("spreadsheetId", field string_t "ID of the spreadsheet");
          ("sheetId", field number_t "ID of the sheet");
          ("range", object_of "Range to format"
             [("startRowIndex", bare number_t);
              ("endRowIndex", bare number_t);
              ("startColumnIndex", bare number_t);
              ("endColumnIndex", bare number_t)]
             ["startRowIndex"; "endRowIndex";
              "startColumnIndex"; "endColumnIndex"]);
          ("format", field object_t "Format to apply")]
         (Some ["spreadsheetId"; "sheetId"; "range"; "format"]) |};
    {| Tool.name := "google_sheets_verify_connection";
       Tool.description :=
         "Verify connection with Google Sheets API and check credentials";
       Tool.inputSchema := input [] None |};
    {| Tool.name := "write_to_sheet";
       Tool.description :=
         "Write data with headers and rows to a Google Sheet";
       Tool.inputSchema := input
         [("spreadsheetId", field string_t "ID of the spreadsheet to write to");
          ("sheetName", field string_t "Name of the sheet to write to");
          ("data", object_of "Data to write to the sheet"
             [("headers", array_of (bare string_t) "Array of column headers");
              ("rows", array_of
                 (Schema.make (Some array_t) None (Some anything) None None)
                 "Array of row data (2D array)")]
             ["headers"; "rows"]);
          ("clearExisting", field boolean_t
             "Whether to clear existing data before writing (default: false)")]
         (Some ["spreadsheetId"; "sheetName"; "data"]) |} ].

(** ** The dispatch gateway *)

Record TextContent : Type := {
  type : string;
  text : option string
}.

Record ResultEnvelope : Type := {
  content : list TextContent;
  isError : option bool
}.

(** [ErrorCode.MethodNotFound] of the protocol SDK. *)
Definition MethodNotFound : Z := (-32601)%Z.

(** The switch of the call handler, one row per [case]: the tool name, the
    client method the case calls, and the keys of [args] it passes, in
    order. Every case wraps the result the same way. *)
Definition cases : list (string * (string * list string)) :=
  [("google_sheets_create", ("createSpreadsheet", ["title"; "sheets"]));
   ("google_sheets_get", ("getSpreadsheet", ["spreadsheetId"; "includeGridData"]));
   ("google_sheets_update_values",
     ("updateValues", ["spreadsheetId"; "range"; "values"; "valueInputOption"]));
   ("google_sheets_append_values",
     ("appendValues", ["spreadsheetId"; "range"; "values"; "valueInputOption"]));
   ("google_sheets_get_values", ("getValues", ["spreadsheetId"; "range"]));
   ("google_sheets_clear_values", ("clearValues", ["spreadsheetId"; "range"]));
   ("google_sheets_add_sheet", ("addSheet", ["spreadsheetId"; "sheetTitle"]));
   ("google_sheets_delete_sheet", ("deleteSheet", ["spreadsheetId"; "sheetId"]));
   ("google_sheets_list", ("listSpreadsheets", ["pageSize"; "pageToken"]));
   ("google_sheets_delete", ("deleteSpreadsheet", ["spreadsheetId"]));
   ("google_sheets_share",
     ("shareSpreadsheet", ["spreadsheetId"; "emailAddress"; "role"]));
   ("google_sheets_search",
     ("searchSpreadsheets", ["query"; "pageSize"; "pageToken"]));
   ("google_sheets_format_cells",
     ("formatCells", ["spreadsheetId"; "sheetId"; "range"; "format"]));
   ("google_sheets_verify_connection", ("verifyConnection", []));
   ("write_to_sheet",
     ("writeToSheet", ["spreadsheetId"; "sheetName"; "data"; "clearExisting"]))].

Section Gateway.
Context `{Outside} `{JsEngine}.
Variable googleSheets : GoogleSheetsClient.
Local Open Scope client_scope.

(** [request.params] of a call request. *)
Record CallToolRequest : Type := {
  params_name : string;
  params_arguments : option (gmap string JsValue)
}.

(** [new McpError (code, message)]: the SDK's constructor prefixes the
    message with the code. *)
Definition McpError (code : Z) (message : string) : JsValue :=
  JObject [("code", num code);
           ("message", JString ("MCP error " +:+ pretty code +:+ ": " +:+ message))].

(** The handler of [ListToolsRequestSchema]. *)
Definition listTools : ClientM (list Tool.t) := ret tools.

(** [{ content: [{ type: 'text', text: JSON.stringify (result, null, 2) }] }] *)
Definition respond (result : JsValue) : ResultEnvelope :=
  {| content := [ {| type := "text"; text := JSON_stringify result |} ];
     isError := None |}.

(** The envelope of the [catch]:
    [{ content: [{ type: 'text', text: `Google Sheets API error: ${error.message}` }],
       isError: true }], the message already printed *)
Definition failed (printed : string) : ResultEnvelope :=
  {| content := [ {| type := "text";
                     text := Some ("Google Sheets API error: " +:+ printed) |} ];
     isError := Some true |}.

(** [args.key] *)
Definition arg (args : gmap string JsValue) (key : string) : JsValue :=
  default JUndefined (args !! key).

(** The body of the handler's [try]. *)
Definition dispatch (request : CallToolRequest) : ClientM ResultEnvelope :=
  let args := default ∅ (params_arguments request) in
  match assoc (params_name request) cases with
  | Some (method, keys) =>
      let* result :=
        invoke googleSheets "this.googleSheets" method (map (arg args) keys) in
      ret (respond result)
  | None =>
      throw (McpError MethodNotFound
               ("Unknown tool: " +:+ params_name request))
  end.

(** The handler of [CallToolRequestSchema]. *)
Definition handleCall (request : CallToolRequest) : ClientM ResultEnvelope :=
  try_catch (dispatch request)
    (fun error =>
       log_error ("Error executing tool " +:+ params_name request +:+ ":") error;;
       let* message := lift (js_get error "message") in
       let* printed := lift (js_to_string message) in
       ret (failed printed)).

End Gateway.

Arguments params_name {_} _.
Arguments params_arguments {_} _.

(** ** Start-up

    What runs before the first request: the credential checks at the top of
    [index.ts], the constructor of the server and the constructor of
    [GoogleSheetsClient], and the [cleanup] the client registers for the
    end of the process. The SDK server, the API clients and the signal
    handlers they set up are outside this model. *)

(** The host of the process: its files, its entropy, its console. *)
Class Node `{JsNumber} := {
  Host : Type;
  (** [fs.existsSync (path)] *)
  existsSync : string -> Host -> bool;
  (** [fs.writeFileSync (path, content)] *)
  writeFileSync : string -> string -> Host -> Exc unit * Host;
  (** [fs.unlinkSync (path)] *)
  unlinkSync : string -> Host -> Exc unit * Host;
  (** [os.tmpdir ()] *)
  tmpdir : Host -> string;
  (** [crypto.randomBytes (16).toString ('hex')] *)
  randomHex : Host -> string * Host;
  (** [path.join (a, b)] *)
  path_join : string -> string -> string;
  (** [console.log (value)] *)
  console_log : JsValue -> Host -> Host;
  (** [console.error (line)] *)
  console_error_line : string -> Host -> Host
}.

(** The seven settings, each a string or [undefined]: the shape of both
    the parsed command line and [process.env]. *)
Record Settings : Type := {
  GOOGLE_APPLICATION_CREDENTIALS : option string;
  GOOGLE_APPLICATION_CREDENTIALS_JSON : option string;
  GOOGLE_API_KEY : option string;
  GOOGLE_CLOUD_PROJECT_ID : option string;
  client_id : option string;
  client_secret : option string;
  refresh_token : option string
}.

(** The options of the client constructor. *)
Module Options.
Record t : Type := {
  serviceAccountPath : option string;
  serviceAccountJson : option string;
  apiKey : option string;
  projectId : option string;
  oauthClientId : option string;
  oauthClientSecret : option string;
  oauthRefreshToken : option string;
  isOAuth : bool
}.
End Options.

(** [ToBoolean] of a string or [undefined]. *)
Definition truthy (v : option string) : bool :=
  match v with
  | Some s => negb (String.eqb s "")
  | None => false
  end.

(** [a || b] *)
Definition or_else (a b : option string) : option string :=
  if truthy a then a else b.

(** [a && b && c], as a condition *)
Definition all_three (a b c : option string) : bool :=
  truthy a && truthy b && truthy c.

(** The client object once constructed: the handle the operations use and
    the temporary credentials file it may own. *)
Record Constructed : Type := {
  handle : GoogleSheetsClient;
  tempFilePath : option string
}.

Section Startup.
Context `{Node} `{JsEngine}.

(** A string or [undefined] as a value. *)
Definition js_of (v : option string) : JsValue :=
  match v with
  | Some s => JString s
  | None => JUndefined
  end.

(** [new Error (message)] *)
Definition new_Error (message : string) : JsValue :=
  JObject [("message", JString message)].

Definition log (line : string) (h : Host) : Host := console_log (JString line) h.

(** The constructor of [GoogleSheetsClient]. *)
Definition construct (options : Options.t) (env : Settings) (h : Host)
  : Exc Constructed * Host :=
  let projectId :=
    default "" (or_else (or_else (Options.projectId options)
                                 (GOOGLE_CLOUD_PROJECT_ID env))
                        (Some "")) in
  let h := log ("Using project ID: " +:+ projectId
                +:+ " for Google Sheets API false") h in
  if negb (truthy (Some projectId)) && negb (Options.isOAuth options)
  then (Throw (new_Error
          "GOOGLE_CLOUD_PROJECT_ID environment variable or projectId parameter is required"),
        h)
  else
    let apiKey := or_else (Options.apiKey options) (GOOGLE_API_KEY env) in
    let serviceAccountJson :=
      or_else (Options.serviceAccountJson options)
              (GOOGLE_APPLICATION_CREDENTIALS_JSON env) in
    let serviceAccountPath :=
      or_else (Options.serviceAccountPath options)
              (GOOGLE_APPLICATION_CREDENTIALS env) in
    let oauthClientId := or_else (Options.oauthClientId options) (client_id env) in
    let oauthClientSecret :=
      or_else (Options.oauthClientSecret options) (client_secret env) in
    let oauthRefreshToken :=
      or_else (Options.oauthRefreshToken options) (refresh_token env) in
    let finish (auth : Auth) (temp : option string) (h : Host) :=
      (Return {| handle := {| projectId := projectId; auth := auth |};
                 tempFilePath := temp |},
       log "Google Sheets client initialized" h) in
    if negb (truthy apiKey) && negb (truthy serviceAccountPath)
       && negb (truthy serviceAccountJson)
       && negb (all_three oauthClientId oauthClientSecret oauthRefreshToken)
    then (Throw (new_Error
            "Either GOOGLE_API_KEY, GOOGLE_APPLICATION_CREDENTIALS, GOOGLE_APPLICATION_CREDENTIALS_JSON, or OAuth credentials must be provided"),
          h)
    else if truthy apiKey
    then finish (ApiKey (default "" apiKey)) None
                (log "Using API key authentication" h)
    else if truthy serviceAccountJson
    then
      let h := log "Using service account JSON content for authentication" h in
      let tempDir := tmpdir h in
      let (randomId, h) := randomHex h in
      let path :=
        path_join tempDir ("google-credentials-" +:+ randomId +:+ ".json") in
      match writeFileSync path (default "" serviceAccountJson) h with
      | (Return _, h) => finish GoogleAuth (Some path) h
      | (Throw error, h) =>
          match js_get error "message" with
          | Return message =>
              match js_to_string message with
              | Return printed =>
                  (Throw (new_Error
                            ("Failed to create temporary credentials file: "
                             +:+ printed)), h)
              | Throw raised => (Throw raised, h)
              end
          | Throw raised => (Throw raised, h)
          end
      end
    else if truthy serviceAccountPath
    then
      if negb (existsSync (default "" serviceAccountPath) h)
      then (Throw (new_Error ("Service account key file not found at: "
                              +:+ default "" serviceAccountPath)), h)
      else finish GoogleAuth None
                  (log "Using service account authentication from file" h)
    else if all_three oauthClientId oauthClientSecret oauthRefreshToken
    then finish OAuth2 None (log "Using OAuth2 authentication" h)
    else finish NoAuth None h.

(** [cleanup] of the client. *)
Definition cleanup (this : Constructed) (h : Host) : Exc Constructed * Host :=
  match tempFilePath this with
  | Some path =>
      if negb (String.eqb path "") && existsSync path h
      then
        match unlinkSync path h with
        | (Return _, h) =>
            (Return {| handle := handle this; tempFilePath := None |},
             log ("Cleaned up temporary credentials file: " +:+ path) h)
        | (Throw error, h) =>
            match js_get error "message" with
            | Return message =>
                match js_to_string message with
                | Return printed =>
                    (Return this,
                     console_error_line
                       ("Failed to clean up temporary credentials file: "
                        +:+ printed) h)
                | Throw raised => (Throw raised, h)
                end
            | Throw raised => (Throw raised, h)
            end
        end
      else (Return this, h)
  | None => (Return this, h)
  end.

(** [values[name] || process.env[name]], setting by setting. *)
Definition resolve (values env : Settings) : Settings :=
  {| GOOGLE_APPLICATION_CREDENTIALS :=
       or_else (GOOGLE_APPLICATION_CREDENTIALS values)
               (GOOGLE_APPLICATION_CREDENTIALS env);
     GOOGLE_APPLICATION_CREDENTIALS_JSON :=
       or_else (GOOGLE_APPLICATION_CREDENTIALS_JSON values)
               (GOOGLE_APPLICATION_CREDENTIALS_JSON env);
     GOOGLE_API_KEY := or_else (GOOGLE_API_KEY values) (GOOGLE_API_KEY env);
     GOOGLE_CLOUD_PROJECT_ID :=
       or_else (GOOGLE_CLOUD_PROJECT_ID values) (GOOGLE_CLOUD_PROJECT_ID env);
     client_id := or_else (client_id values) (client_id env);
     client_secret := or_else (client_secret values) (client_secret env);
     refresh_token := or_else (refresh_token values) (refresh_token env) |}.

Definition oauth_complete (s : Settings) : bool :=
  all_three (client_id s) (client_secret s) (refresh_token s).

(** The checks at the top of [index.ts]; on success, the settings in
    force. *)
Definition startup (values env : Settings) (h : Host) : Exc Settings * Host :=
  let s := resolve values env in
  if negb (truthy (GOOGLE_APPLICATION_CREDENTIALS s))
     && negb (truthy (GOOGLE_APPLICATION_CREDENTIALS_JSON s))
     && negb (truthy (GOOGLE_API_KEY s))
     && negb (oauth_complete s)
  then (Throw (new_Error
          "Either GOOGLE_APPLICATION_CREDENTIALS, GOOGLE_APPLICATION_CREDENTIALS_JSON, GOOGLE_API_KEY, or OAuth credentials are required"),
        h)
  else
    let isOAuthEnabled := oauth_complete s in
    let h :=
      console_log
        (JObject [("oauthClientId", js_of (client_id s));
                  ("oauthClientSecret", js_of (client_secret s));
                  ("oauthRefreshToken", js_of (refresh_token s));
                  ("isOAuthEnabled", JBool isOAuthEnabled)]) h in
    if negb (truthy (GOOGLE_CLOUD_PROJECT_ID s)) && negb isOAuthEnabled
    then (Throw (new_Error
            "GOOGLE_CLOUD_PROJECT_ID environment variable is required"), h)
    else (Return s, h).

(** The constructor of [GoogleSheetsServer], up to the client it builds. *)
Definition GoogleSheetsServer (s env : Settings) (h : Host)
  : Exc Constructed * Host :=
  let h := if truthy (GOOGLE_APPLICATION_CREDENTIALS s)
           then log ("Using service account: "
                     +:+ default "" (GOOGLE_APPLICATION_CREDENTIALS s)) h
           else h in
  let h := if truthy (GOOGLE_API_KEY s)
           then log ("Using API key: "
                     +:+ substring 0 4 (default "" (GOOGLE_API_KEY s))
                     +:+ "...") h
           else h in
  let h := if oauth_complete s
           then log ("Using OAuth credentials with client ID: "
                     +:+ substring 0 4 (default "" (client_id s)) +:+ "...") h
           else h in
  let h := log ("Using project ID: "
                +:+ default "undefined" (GOOGLE_CLOUD_PROJECT_ID s)) h in
  construct
    {| Options.serviceAccountPath := GOOGLE_APPLICATION_CREDENTIALS s;
       Options.serviceAccountJson := GOOGLE_APPLICATION_CREDENTIALS_JSON s;
       Options.apiKey := GOOGLE_API_KEY s;
       Options.projectId := GOOGLE_CLOUD_PROJECT_ID s;
       Options.oauthClientId := client_id s;
       Options.oauthClientSecret := client_secret s;
       Options.oauthRefreshToken := refresh_token s;
       Options.isOAuth := oauth_complete s |}
    env h.

(** The module as a whole: the checks, then [new GoogleSheetsServer ()]. *)
Definition boot (values env : Settings) (h : Host) : Exc Constructed * Host :=
  match startup values env h with
  | (Return s, h) => GoogleSheetsServer s env h
  | (Throw error, h) => (Throw error, h)
  end.

End Startup.

(** ** A concrete setting

    One instance of each interface, on which the gateway can be run:
    integer-valued doubles, the message texts of V8, and a small in-memory
    spreadsheet service. *)

Module Sample.

(** The doubles that are integers, and NaN. *)
Inductive double : Type :=
| NaN
| Int (z : Z).

(** [StringToNumber] on the strings that spell an integer in plain decimal
    (the empty string reads as zero); every other string reads as NaN here. *)
Definition read_integer (s : string) : double :=
  match s with
  | EmptyString => Int 0
  | String "-"%char rest =>
      match rest, parse_digits 0 rest with
      | String _ _, Some n => Int (- Z.of_N n)
      | _, _ => NaN
      end
  | _ =>
      match parse_digits 0 s with
      | Some n => Int (Z.of_N n)
      | None => NaN
      end
  end.

#[export] Instance integers : JsNumber := {|
  Num := double;
  num_of_Z := Int;
  num_to_string := fun n => match n with NaN => "NaN" | Int z => pretty z end;
  num_finite := fun n => match n with NaN => false | Int _ => true end;
  num_truthy := fun n => match n with NaN => false | Int z => negb (z =? 0)%Z end;
  num_pos := fun n => match n with NaN => false | Int z => (0 <? z)%Z end;
  str_to_num := read_integer
|}.

Definition v8_message (kind : TypeErrorKind) : string :=
  match kind with
  | NotAFunction callee => callee +:+ " is not a function"
  | CannotReadProperty of_null property =>
      "Cannot read properties of "
      +:+ (if of_null then "null" else "undefined")
      +:+ " (reading '" +:+ property +:+ "')"
  | CannotConvertToPrimitive => "Cannot convert object to primitive value"
  end.

(** The stack starts with the error line; the frames below it are left out. *)
#[export] Instance v8 : JsEngine := {|
  typeErrorMessage := v8_message;
  typeErrorStack := fun kind => "TypeError: " +:+ v8_message kind
|}.

(** The service: the spreadsheets it knows, the values stored under each
    (spreadsheet, range), the number of mutating requests it will still
    accept, and the lines printed on the error console. *)
Record Service : Type := {
  known : list string;
  cells : gmap (string * string) JsValue;
  quota : nat;
  console : list string
}.

Definition prop (v : JsValue) (k : string) : JsValue :=
  match v with
  | JObject props => default JUndefined (assoc k props)
  | _ => JUndefined
  end.

(** What the service reads as the name in a parameter: its printed form,
    or nothing when it has none. *)
Definition named (v : JsValue) : string :=
  match js_to_string v with
  | Return s => s
  | Throw _ => ""
  end.

Definition failure (code : Z) (message : string) : JsValue :=
  JObject [("message", JString message); ("code", num code)].

Definition spend (w : Service) (cells' : gmap (string * string) JsValue) : Service :=
  {| known := known w; cells := cells'; quota := pred (quota w);
     console := console w |}.

Definition serve (endpoint : Endpoint) (params : JsValue) (w : Service)
  : Outcome * Service :=
  let id := named (prop params "spreadsheetId") in
  let range := named (prop params "range") in
  let guarded (k : Outcome * Service) : Outcome * Service :=
    if negb (existsb (String.eqb id) (known w))
    then (Rejected (failure 404 ("Requested entity was not found: " +:+ id)), w)
    else if Nat.eqb (quota w) 0
    then (Rejected (failure 429 "Quota exceeded"), w)
    else k in
  match endpoint with
  | spreadsheets_values_update =>
      guarded
        (Resolved (JObject [("data", JObject [("spreadsheetId", JString id);
                                              ("updatedRange", JString range)])]),
         spend w (<[(id, range) := prop (prop params "requestBody") "values"]>
                    (cells w)))
  | spreadsheets_values_clear =>
      guarded
        (Resolved (JObject [("data", JObject [("spreadsheetId", JString id);
                                              ("clearedRange", JString range)])]),
         spend w (delete (id, range) (cells w)))
  | spreadsheets_values_get =>
      (Resolved (JObject [("data", JObject
                   [("range", JString range);
                    ("values", default JUndefined (cells w !! (id, range)))])]),
       w)
  | _ => (Rejected (failure 501 "Not available in this service"), w)
  end.

#[export] Instance service : Outside := {|
  World := Service;
  remote := serve;
  console_error := fun label _ w =>
    {| known := known w; cells := cells w; quota := quota w;
       console := console w ++ [label] |};
  now_iso := fun _ => "2024-01-01T00:00:00.000Z"
|}.

Definition client : GoogleSheetsClient :=
  {| projectId := "demo-project"; auth := OAuth2 |}.

Definition call (tool : string) (args : list (string * JsValue))
  : CallToolRequest :=
  {| params_name := tool; params_arguments := Some (list_to_map args) |}.

(** One known spreadsheet with one stored range, and room for a single
    mutating request. *)
Definition stored : JsValue := JArray [JArray [JString "old"]].

Definition start : Service :=
  {| known := ["S"];
     cells := {[ ("S", "Sheet1") := stored ]};
     quota := 1;
     console := [] |}.



(** The call of the composite write, asking to clear first. *)
Definition write_clearing : CallToolRequest :=
  call "write_to_sheet"
    [("spreadsheetId", JString "S");
     ("sheetName", JString "Sheet1");
     ("data", JObject [("headers", JArray [JString "h"]);
                       ("rows", JArray [JArray [JString "v"]])]);
     ("clearExisting", JBool true)].

(** A service that can also create a spreadsheet: it answers with a fixed
    new id and hands back what it was asked for. *)
Definition serve_creating (endpoint : Endpoint) (params : JsValue) (w : Service)
  : Outcome * Service :=
  match endpoint with
  | spreadsheets_create =>
      (Resolved
         (JObject
            [("data",
              JObject
                [("spreadsheetId", JString "fresh");
                 ("properties",
                   prop (prop params "requestBody") "properties");
                 ("sheets", prop (prop params "requestBody") "sheets")])]),
       {| known := "fresh" :: known w; cells := cells w; quota := quota w;
          console := console w |})
  | _ => serve endpoint params w
  end.

Definition studio : Outside := {|
  World := Service;
  remote := serve_creating;
  console_error := fun label _ w =>
    {| known := known w; cells := cells w; quota := quota w;
       console := console w ++ [label] |};
  now_iso := fun _ => "2024-01-01T00:00:00.000Z"
|}.


(** A host: its files, whether its temporary directory refuses writes, the
    next random id, and the lines printed. *)
Record Machine : Type := {
  files : gmap string string;
  sealed : bool;
  entropy : string;
  printed : list JsValue;
  complaints : list string
}.

Definition with_files (m : Machine) (files' : gmap string string) : Machine :=
  {| files := files'; sealed := sealed m; entropy := entropy m;
     printed := printed m; complaints := complaints m |}.

#[export] Instance machine : Node := {|
  Host := Machine;
  existsSync := fun path m => bool_decide (is_Some (files m !! path));
  writeFileSync := fun path text m =>
    if sealed m
    then (Throw (failure 13 ("EACCES: permission denied, open '"
                             +:+ path +:+ "'")), m)
    else (Return tt, with_files m (<[path := text]> (files m)));
  unlinkSync := fun path m =>
    match files m !! path with
    | Some _ => (Return tt, with_files m (delete path (files m)))
    | None => (Throw (failure 2 ("ENOENT: no such file or directory, unlink '"
                                 +:+ path +:+ "'")), m)
    end;
  tmpdir := fun _ => "/tmp";
  randomHex := fun m => (entropy m, m);
  path_join := fun a b => a +:+ "/" +:+ b;
  console_log := fun v m =>
    {| files := files m; sealed := sealed m; entropy := entropy m;
       printed := printed m ++ [v]; complaints := complaints m |};
  console_error_line := fun line m =>
    {| files := files m; sealed := sealed m; entropy := entropy m;
       printed := printed m; complaints := complaints m ++ [line] |}
|}.

(** A host holding one service-account key file. *)
Definition laptop : Machine :=
  {| files := {[ "/home/me/key.json" := "{}" ]};
     sealed := false;
     entropy := "000102030405060708090a0b0c0d0e0f";
     printed := [];
     complaints := [] |}.

Definition nothing : Settings :=
  {| GOOGLE_APPLICATION_CREDENTIALS := None;
     GOOGLE_APPLICATION_CREDENTIALS_JSON := None;
     GOOGLE_API_KEY := None;
     GOOGLE_CLOUD_PROJECT_ID := None;
     client_id := None;
     client_secret := None;
     refresh_token := None |}.

(** A project and a service-account key file that is there. *)
Definition with_key_file : Settings :=
  {| GOOGLE_APPLICATION_CREDENTIALS := Some "/home/me/key.json";
     GOOGLE_APPLICATION_CREDENTIALS_JSON := None;
     GOOGLE_API_KEY := None;
     GOOGLE_CLOUD_PROJECT_ID := Some "demo-project";
     client_id := None;
     client_secret := None;
     refresh_token := None |}.

(** A project and a service-account key file that is not there. *)
Definition with_missing_file : Settings :=
  {| GOOGLE_APPLICATION_CREDENTIALS := Some "/home/me/gone.json";
     GOOGLE_APPLICATION_CREDENTIALS_JSON := None;
     GOOGLE_API_KEY := None;
     GOOGLE_CLOUD_PROJECT_ID := Some "demo-project";
     client_id := None;
     client_secret := None;
     refresh_token := None |}.

(** Options naming an API key beside a key file that is not there. *)
Definition key_and_missing_file : Options.t :=
  {| Options.serviceAccountPath := Some "/home/me/gone.json";
     Options.serviceAccountJson := None;
     Options.apiKey := Some "AIzaSyExample";
     Options.projectId := Some "demo-project";
     Options.oauthClientId := None;
     Options.oauthClientSecret := None;
     Options.oauthRefreshToken := None;
     Options.isOAuth := false |}.

(** Options naming the key file that is there. *)
Definition key_file_only : Options.t :=
  {| Options.serviceAccountPath := Some "/home/me/key.json";
     Options.serviceAccountJson := None;
     Options.apiKey := None;
     Options.projectId := Some "demo-project";
     Options.oauthClientId := None;
     Options.oauthClientSecret := None;
     Options.oauthRefreshToken := None;
     Options.isOAuth := false |}.

End Sample.

(** * The vocabulary of the statements *)

(** [hay] contains [needle]. *)
Definition mentions (needle hay : string) : Prop :=
  exists before after, hay = before +:+ needle +:+ after.

(** The external-interface table of the specification, row by row: the
    short name of a tool and the arguments it requires, a nested argument
    with the fields it requires in turn. *)
Inductive Requirement : Type :=
| plain (argument : string)
| nested (argument : string) (fields : list string).

Definition interface_table : list (string * list Requirement) :=
  [("create", [plain "title"]);
   ("get", [plain "spreadsheetId"]);
   ("update_values", [plain "spreadsheetId"; plain "range"; plain "values"]);
   ("append_values", [plain "spreadsheetId"; plain "range"; plain "values"]);
   ("get_values", [plain "spreadsheetId"; plain "range"]);
   ("clear_values", [plain "spreadsheetId"; plain "range"]);
   ("add_sheet", [plain "spreadsheetId"; plain "sheetTitle"]);
   ("delete_sheet", [plain "spreadsheetId"; plain "sheetId"]);
   ("list", []);
   ("delete", [plain "spreadsheetId"]);
   ("share", [plain "spreadsheetId"; plain "emailAddress"]);
   ("search", [plain "query"]);
   ("format_cells",
     [plain "spreadsheetId"; plain "sheetId";
      nested "range" ["startRowIndex"; "endRowIndex";
                      "startColumnIndex"; "endColumnIndex"];
      plain "format"]);
   ("verify_connection", []);
   ("write_to_sheet",
     [plain "spreadsheetId"; plain "sheetName";
      nested "data" ["headers"; "rows"]])].

(** The name under which the catalogue advertises a row of the table: the
    table drops the common prefix of the fourteen plain operations. *)
Definition advertised_as (row : string) : string :=
  if String.eqb row "write_to_sheet" then row else "google_sheets_" +:+ row.

Definition required_of (s : Schema.t) : list string :=
  default [] (Schema.required s).

Definition declared_in (s : Schema.t) : list string :=
  map fst (default [] (Schema.properties s)).

Definition property_of (s : Schema.t) (k : string) : option Schema.t :=
  assoc k (default [] (Schema.properties s)).

Definition argument_of (r : Requirement) : string :=
  match r with
  | plain a | nested a _ => a
  end.

(** The schema declares the argument, with the nested requirements listed
    (none for a plain argument). *)
Definition requirement_met (s : Schema.t) (r : Requirement) : Prop :=
  exists child,
    property_of s (argument_of r) = Some child
    /\ required_of child = match r with
                           | plain _ => []
                           | nested _ fields => fields
                           end.

(** One descriptor answers to the row; it requires the listed arguments
    and leaves every other field it declares optional. *)
Definition row_met (row : string * list Requirement) : Prop :=
  exists descriptor,
    List.filter
      (fun d => String.eqb (Tool.name d) (advertised_as (fst row))) tools
    = [descriptor]
    /\ required_of (Tool.inputSchema descriptor) = map argument_of (snd row)
    /\ Forall (requirement_met (Tool.inputSchema descriptor)) (snd row)
    /\ forall k,
         In k (declared_in (Tool.inputSchema descriptor)) ->
         ~ In k (map argument_of (snd row)) ->
         ~ In k (required_of (Tool.inputSchema descriptor)).

(** The defaulted optional arguments: tool, argument, default. *)
Definition defaulted_arguments `{JsNumber} : list (string * string * JsValue) :=
  [("google_sheets_update_values", "valueInputOption", JString "USER_ENTERED");
   ("google_sheets_append_values", "valueInputOption", JString "USER_ENTERED");
   ("google_sheets_share", "role", JString "reader");
   ("google_sheets_list", "pageSize", num 10);
   ("google_sheets_search", "pageSize", num 10);
   ("google_sheets_get", "includeGridData", JBool false)].

(** The endpoint behind each tool that sends its request unconditionally:
    [create] and [search] may fail before they send theirs. *)
Definition endpoints : list (string * Endpoint) :=
  [("google_sheets_get", spreadsheets_get);
   ("google_sheets_update_values", spreadsheets_values_update);
   ("google_sheets_append_values", spreadsheets_values_append);
   ("google_sheets_get_values", spreadsheets_values_get);
   ("google_sheets_clear_values", spreadsheets_values_clear);
   ("google_sheets_add_sheet", spreadsheets_batchUpdate);
   ("google_sheets_delete_sheet", spreadsheets_batchUpdate);
   ("google_sheets_list", files_list);
   ("google_sheets_delete", files_delete);
   ("google_sheets_share", permissions_create);
   ("google_sheets_format_cells", spreadsheets_batchUpdate);
   ("google_sheets_verify_connection", files_list)].

(** The tools that hand back [response.data] as it came. *)
Definition forwarding : list (string * Endpoint) :=
  [("google_sheets_get", spreadsheets_get);
   ("google_sheets_update_values", spreadsheets_values_update);
   ("google_sheets_append_values", spreadsheets_values_append);
   ("google_sheets_get_values", spreadsheets_values_get);
   ("google_sheets_clear_values", spreadsheets_values_clear);
   ("google_sheets_add_sheet", spreadsheets_batchUpdate);
   ("google_sheets_delete_sheet", spreadsheets_batchUpdate);
   ("google_sheets_format_cells", spreadsheets_batchUpdate)].

(** The tools that build the payload they return. *)
Definition composing : list string :=
  ["google_sheets_create"; "google_sheets_list"; "google_sheets_delete";
   "google_sheets_share"; "google_sheets_search";
   "google_sheets_verify_connection"].

(** The keys of [args] the case of a tool reads. *)
Definition keys_read (tool : string) : list string :=
  match assoc tool cases with
  | Some (_, keys) => keys
  | None => []
  end.

(** The defaulted arguments that travel at the top of a request sent
    unconditionally: tool, endpoint, key and default. *)
Definition defaulted_at_top `{JsNumber}
  : list (string * Endpoint * string * JsValue) :=
  [("google_sheets_update_values", spreadsheets_values_update,
    "valueInputOption", JString "USER_ENTERED");
   ("google_sheets_append_values", spreadsheets_values_append,
    "valueInputOption", JString "USER_ENTERED");
   ("google_sheets_list", files_list, "pageSize", num 10);
   ("google_sheets_get", spreadsheets_get, "includeGridData", JBool false)].

Section Vocabulary.
Context `{Outside} `{JsEngine}.

(** A value whose [message] can be read: anything but [null] and
    [undefined]. *)
Definition readable (error : JsValue) : Prop :=
  exists message, js_get error "message" = Return message.

(** An error whose [message] is a string, as those of the engine and of
    the SDK are. *)
Definition worded (error : JsValue) : Prop :=
  exists printed, js_get error "message" = Return (JString printed).

(** Pure steps that throw nothing but worded errors. *)
Definition sound {A : Type} (e : Exc A) : Prop :=
  forall error, e = Throw error -> worded error.

(** Computations that throw nothing but worded errors. *)
Definition contained {A : Type} (m : ClientM A) : Prop :=
  forall w error w', m w = (Throw error, w') -> worded error.

(** The computation returns from this world. *)
Definition returns {A : Type} (m : ClientM A) (w : World) : Prop :=
  exists a w', m w = (Return a, w').

(** From this world the computation throws nothing unreadable. *)
Definition guarded {A : Type} (w : World) (m : ClientM A) : Prop :=
  forall error w', m w = (Throw error, w') -> readable error.

(** Steps that leave the world alone and throw nothing but worded errors. *)
Definition inert {A : Type} (m : ClientM A) : Prop :=
  contained m /\ forall w, snd (m w) = w.

(** Whatever the remote service rejects with from this world can be read. *)
Definition rejections_readable (w : World) : Prop :=
  forall endpoint params reason w',
    remote endpoint params w = (Rejected reason, w') -> readable reason.

(** [w'] is [w] after at most two lines on the error console. *)
Definition logged (w w' : World) : Prop :=
  w' = w
  \/ (exists l e, w' = console_error l e w)
  \/ (exists l e l' e', w' = console_error l' e' (console_error l e w)).

End Vocabulary.

(** * Properties *)

Lemma append_empty_r s : s +:+ "" = s.
Proof.
  induction s as [| c s IH]; [ reflexivity | ].
  change (String c (s +:+ "") = String c s). now rewrite IH.
Qed.





Lemma mentions_suffix before needle : mentions needle (before +:+ needle).
Proof. exists before, ""; now rewrite append_empty_r. Qed.

(** ** What a computation may throw *)

Section Throws.
Context `{Outside} `{JsEngine}.
Local Open Scope client_scope.

Lemma worded_readable error : worded error -> readable error.
Proof. intros [printed E]; eexists; exact E. Qed.

Lemma TypeError_worded kind : worded (TypeError kind).
Proof. eexists; reflexivity. Qed.

Lemma McpError_worded code message : worded (McpError code message).
Proof. eexists; reflexivity. Qed.

Lemma js_get_sound v p : sound (js_get v p).
Proof.
  intros error; destruct v; simpl; intros E; inversion E;
    apply TypeError_worded.
Qed.

Lemma js_get_opt_sound v p : sound (js_get_opt v p).
Proof.
  destruct v; simpl; try apply js_get_sound; intros error E; inversion E.
Qed.

Lemma js_map_sound callee v f : sound (js_map callee v f).
Proof.
  intros error; destruct v; simpl; intros E; inversion E;
    apply TypeError_worded.
Qed.

Lemma traverse_throws {A B : Type} (f : A -> Exc B) (P : JsValue -> Prop) l :
  List.Forall (fun x => forall error, f x = Throw error -> P error) l ->
  forall error, traverse f l = Throw error -> P error.
Proof.
  induction 1 as [| x l F _ IH]; simpl; [ discriminate | ].
  intros error. destruct (f x) as [b | thrown] eqn:E.
  - destruct (traverse f l); [ discriminate | ].
    intros [= <-]. now apply IH.
  - intros [= <-]. now apply F.
Qed.

(** Induction on a value through the elements of its arrays. *)
Lemma JsValue_array_ind (P : JsValue -> Prop) :
  P JUndefined -> P JNull -> (forall b, P (JBool b)) ->
  (forall n, P (JNumber n)) -> (forall s, P (JString s)) ->
  (forall items, List.Forall P items -> P (JArray items)) ->
  (forall props, P (JObject props)) ->
  forall v, P v.
Proof.
  intros U N B M S A O. fix IH 1.
  intros [| | b | n | s | items | props];
    [ exact U | exact N | apply B | apply M | apply S | | apply O ].
  apply A. revert items. fix all 1.
  intros [| x rest]; constructor; [ apply IH | apply all ].
Qed.

(** The one way [ToString] fails. *)
Lemma js_to_string_throws v error :
  js_to_string v = Throw error -> error = TypeError CannotConvertToPrimitive.
Proof.
  revert error. induction v as [| | b | n | s | items IH | props]
    using JsValue_array_ind; intros error; simpl; try discriminate.
  - destruct b; discriminate.
  - destruct (traverse _ items) as [parts | thrown] eqn:T; [ discriminate | ].
    intros [= <-].
    refine (traverse_throws _ (fun e => e = TypeError CannotConvertToPrimitive)
              items _ thrown T).
    clear T. induction IH as [| x rest X _ IHrest]; constructor; [ | exact IHrest ].
    intros e. destruct x; try discriminate; apply X.
  - destruct (assoc "toString" props); [ | discriminate ].
    now intros [= <-].
Qed.

Lemma js_to_string_sound v : sound (js_to_string v).
Proof.
  intros error E. rewrite (js_to_string_throws _ _ E). apply TypeError_worded.
Qed.

Lemma js_gt_zero_sound v : sound (js_gt_zero v).
Proof.
  intros error. unfold js_gt_zero.
  destruct v; try discriminate;
    match goal with
    | |- context [js_to_string ?x] =>
        destruct (js_to_string x) eqn:E; [ discriminate | ];
        intros [= <-]; now apply (js_to_string_sound _ _ E)
    end.
Qed.

Lemma contained_ret {A : Type} (a : A) : contained (ret a).
Proof. intros w error w' E; inversion E. Qed.

Lemma contained_lift {A : Type} (e : Exc A) : sound e -> contained (lift e).
Proof. intros S w error w' E; inversion E; subst; auto. Qed.

Lemma contained_throw {A : Type} error :
  worded error -> contained (throw (A := A) error).
Proof. intros R w e w' E; inversion E; subst; auto. Qed.

Lemma contained_log label error : contained (log_error label error).
Proof. intros w e w' E; inversion E. Qed.

Lemma contained_clock : contained clock.
Proof. intros w e w' E; inversion E. Qed.

Lemma contained_bind {A B : Type} (m : ClientM A) (k : A -> ClientM B) :
  contained m -> (forall a, contained (k a)) -> contained (bind m k).
Proof.
  intros Hm Hk w error w'; unfold bind.
  destruct (m w) as [[a | e] w1] eqn:E.
  - apply Hk.
  - intros E'; inversion E'; subst; eauto.
Qed.

(** Whatever the body throws is caught: only the handler counts. *)
Lemma contained_try_catch {A : Type} (body : ClientM A) handler :
  (forall error, contained (handler error)) -> contained (try_catch body handler).
Proof.
  intros Hh w error w'; unfold try_catch.
  destruct (body w) as [[a | e] w1] eqn:E.
  - intros E'; inversion E'.
  - apply Hh.
Qed.

End Throws.

Create HintDb contained.
#[global] Hint Resolve TypeError_worded McpError_worded js_get_sound
  js_get_opt_sound js_map_sound js_to_string_sound js_gt_zero_sound
  contained_ret contained_lift contained_throw
  contained_log contained_clock : contained.

Ltac contained :=
  repeat first
    [ apply contained_try_catch; intros
    | apply contained_bind; intros
    | match goal with
      | |- contained (if ?b then _ else _) => destruct b
      end
    | solve [auto with contained] ].

Section Containment.
Context `{Outside} `{JsEngine}.
Variable this : GoogleSheetsClient.

(** Every operation of the client catches what its body throws, and its
    handler reads nothing but the caught error. *)
Lemma methods_contained :
  Forall (fun entry => forall args, contained (snd entry args)) (methods this).
Proof.
  unfold methods.
  repeat (apply Forall_cons; split;
          [ intros args; simpl;
            unfold createSpreadsheet, getSpreadsheet, updateValues,
              appendValues, getValues, clearValues, addSheet, deleteSheet,
              listSpreadsheets, deleteSpreadsheet, shareSpreadsheet,
              searchSpreadsheets, formatCells, verifyConnection;
            contained | ]).
  constructor.
Qed.

Lemma assoc_In {A : Type} k (l : list (string * A)) a :
  assoc k l = Some a -> In (k, a) l.
Proof.
  induction l as [| [k' a'] l IH]; simpl; [ discriminate | ].
  destruct (String.eqb k k') eqn:E.
  - apply String.eqb_eq in E; subst. intros [= ->]. now left.
  - intros Ha; right; auto.
Qed.

Lemma assoc_None {A : Type} k (l : list (string * A)) :
  ~ In k (map fst l) -> assoc k l = None.
Proof.
  induction l as [| [k' a'] l IH]; simpl; [ reflexivity | ].
  intros N. destruct (String.eqb k k') eqn:E.
  - apply String.eqb_eq in E; subst. exfalso; apply N; now left.
  - apply IH. intros I; apply N; now right.
Qed.

Lemma invoke_contained receiver method args :
  contained (invoke this receiver method args).
Proof.
  unfold invoke. destruct (assoc method (methods this)) as [f |] eqn:E.
  - apply assoc_In, list_elem_of_In in E.
    pose proof methods_contained as F.
    rewrite Forall_forall in F. apply (F _ E).
  - contained.
Qed.

Lemma dispatch_contained request : contained (dispatch this request).
Proof.
  unfold dispatch.
  destruct (assoc (params_name request) cases) as [[method keys] |].
  - apply contained_bind; [ apply invoke_contained | intros; contained ].
  - contained.
Qed.

End Containment.

(** ** The failure boundary of the gateway *)

Section Boundary.
Context `{Outside} `{JsEngine}.
Variable googleSheets : GoogleSheetsClient.

Lemma handleCall_returned request w envelope w' :
  dispatch googleSheets request w = (Return envelope, w') ->
  handleCall googleSheets request w = (Return envelope, w').
Proof. intros E; unfold handleCall, try_catch; now rewrite E. Qed.

Lemma handleCall_caught request w error w' printed :
  dispatch googleSheets request w = (Throw error, w') ->
  js_get error "message" = Return (JString printed) ->
  handleCall googleSheets request w =
    (Return (failed printed),
     console_error ("Error executing tool " +:+ params_name request +:+ ":")
                   error w').
Proof.
  intros E M; unfold handleCall, try_catch; rewrite E.
  unfold bind, log_error, lift; now rewrite M.
Qed.

Lemma dispatch_known request method keys :
  assoc (params_name request) cases = Some (method, keys) ->
  dispatch googleSheets request =
    bind (invoke googleSheets "this.googleSheets" method
            (map (arg (default ∅ (params_arguments request))) keys))
         (fun result => ret (respond result)).
Proof. intros E; unfold dispatch; now rewrite E. Qed.

Lemma dispatch_unknown request :
  ~ In (params_name request) (map fst cases) ->
  dispatch googleSheets request =
    throw (McpError MethodNotFound ("Unknown tool: " +:+ params_name request)).
Proof. intros N; unfold dispatch; now rewrite (assoc_None _ _ N). Qed.

(** A successful dispatch wraps a result. *)
Lemma dispatch_responds request w envelope w' :
  dispatch googleSheets request w = (Return envelope, w') ->
  exists result, envelope = respond result.
Proof.
  unfold dispatch.
  destruct (assoc (params_name request) cases) as [[method keys] |].
  - unfold bind.
    destruct (invoke googleSheets "this.googleSheets" method _ w)
      as [[result | error] w1].
    + intros E; inversion E; eauto.
    + discriminate.
  - discriminate.
Qed.

(** C5, as amended. Whenever the dispatch of a call raises, the envelope
    returned sets [isError] to true and its single text block is the
    message of the raised error behind the fixed prefix
    "Google Sheets API error: ", whichever tool was called. *)
Theorem raised_call_envelope request w error w' :
  dispatch googleSheets request w = (Throw error, w') ->
  exists message,
    js_get error "message" = Return (JString message)
    /\ handleCall googleSheets request w =
         (Return
            {| content :=
                 [ {| type := "text";
                      text := Some ("Google Sheets API error: " +:+ message) |} ];
               isError := Some true |},
          console_error
            ("Error executing tool " +:+ params_name request +:+ ":")
            error w').
Proof.
  intros E.
  destruct (dispatch_contained googleSheets request _ _ _ E) as [message M].
  exists message; split; [ exact M | now apply handleCall_caught ].
Qed.

(** C4. For every tool name outside the catalogue, and any arguments, the
    call handler returns an envelope with [isError] true whose text
    mentions that name. *)
Theorem unknown_tool_reported name arguments w :
  ~ In name (map Tool.name tools) ->
  exists t w',
    handleCall googleSheets
      {| params_name := name; params_arguments := arguments |} w
    = (Return {| content := [ {| type := "text"; text := Some t |} ];
                 isError := Some true |}, w')
    /\ mentions name t.
Proof.
  intros N.
  set (request := {| params_name := name; params_arguments := arguments |}).
  assert (D : dispatch googleSheets request w
              = (Throw (McpError MethodNotFound ("Unknown tool: " +:+ name)), w)).
  { now rewrite dispatch_unknown. }
  pose proof (handleCall_caught request w _ _ _ D eq_refl) as C.
  eexists _, _; split; [ exact C | ].
  apply (mentions_suffix
           "Google Sheets API error: MCP error -32601: Unknown tool: ").
Qed.

(** C2. Whatever the arguments, a call of [write_to_sheet] ends in the
    failure envelope: the client defines no [writeToSheet], so the call
    raises before any request is made, and the text begins with
    "Google Sheets API error:". *)
Theorem write_to_sheet_always_fails arguments w :
  assoc "writeToSheet" (methods googleSheets) = None
  /\ exists t,
       handleCall googleSheets
         {| params_name := "write_to_sheet"; params_arguments := arguments |} w
       = (Return {| content := [ {| type := "text"; text := Some t |} ];
                    isError := Some true |},
          console_error "Error executing tool write_to_sheet:"
            (TypeError (NotAFunction "this.googleSheets.writeToSheet")) w)
       /\ String.prefix "Google Sheets API error:" t = true.
Proof.
  split; [ reflexivity | ].
  eexists; split.
  - apply handleCall_caught; reflexivity.
  - reflexivity.
Qed.






End Boundary.

(** ** The catalogue *)

(** C7. Each row of the external-interface table is answered by exactly one
    descriptor of the catalogue, whose schema requires exactly the listed
    arguments (the nested ones with exactly their listed fields, the plain
    ones with none) and leaves every other declared field optional; the
    catalogue has no descriptor besides these fifteen. *)
Theorem catalogue_matches_interface_table :
  Forall row_met interface_table /\ length tools = length interface_table.
Proof.
  split; [ | reflexivity ].
  unfold interface_table.
  repeat (apply List.Forall_cons;
          [ eexists; split; [ reflexivity | ];
            split; [ reflexivity | ];
            split; [ repeat (apply List.Forall_cons;
                               [ eexists; split; reflexivity | ]);
                     apply List.Forall_nil
                   | intros k _ N; exact N ]
          | ]).
  apply List.Forall_nil.
Qed.

Section Listing.
Context `{Outside} `{JsEngine}.

(** C8. No two descriptors returned by the listing carry the same name. *)
Theorem tool_names_unique (w : World) :
  exists listed,
    fst (listTools w) = Return listed /\ NoDup (map Tool.name listed).
Proof.
  exists tools; split; [ reflexivity | ].
  apply (bool_decide_unpack _). vm_compute. exact I.
Qed.

(** C9. The listing changes nothing and depends on nothing: from any two
    states of the world it returns the whole catalogue, in order, and it
    still does after a call has been handled. *)
Theorem listTools_constant googleSheets request (w1 w2 : World) :
  listTools w1 = (Return tools, w1)
  /\ fst (listTools w1) = fst (listTools w2)
  /\ fst (listTools (snd (handleCall googleSheets request w1)))
     = fst (listTools w1).
Proof. repeat split. Qed.

End Listing.

(** ** Defaulted arguments *)

Section Defaults.
Context `{Outside} `{JsEngine}.
Variable googleSheets : GoogleSheetsClient.

Lemma arg_absent (args : gmap string JsValue) key :
  args !! key = None -> arg args key = JUndefined.
Proof. intros A; unfold arg; now rewrite A. Qed.

Lemma arg_insert_eq (args : gmap string JsValue) key value :
  arg (<[key := value]> args) key = value.
Proof. unfold arg; now rewrite lookup_insert_eq. Qed.

Lemma arg_insert_ne (args : gmap string JsValue) key value other :
  key <> other -> arg (<[key := value]> args) other = arg args other.
Proof. intros N; unfold arg; now rewrite lookup_insert_ne. Qed.

Ltac same_arguments A :=
  erewrite !dispatch_known by reflexivity; simpl;
  rewrite arg_insert_eq, (arg_absent _ _ A), ?arg_insert_ne by discriminate;
  reflexivity.

(** C10. Omitting a defaulted argument is passing its default: for each of
    [valueInputOption] of [update_values] and [append_values]
    ("USER_ENTERED"), [role] of [share] ("reader"), [pageSize] of [list] and
    [search] (10) and [includeGridData] of [get] (false), a call whose
    arguments lack the key and the same call with the key bound to the
    default end in the same envelope and the same world. *)
Theorem omitted_argument_is_default tool key value
    (args : gmap string JsValue) w :
  In (tool, key, value) defaulted_arguments ->
  args !! key = None ->
  handleCall googleSheets
    {| params_name := tool; params_arguments := Some args |} w
  = handleCall googleSheets
      {| params_name := tool;
         params_arguments := Some (<[key := value]> args) |} w.
Proof.
  intros I A. unfold handleCall, try_catch; simpl.
  match goal with
  | |- match ?d1 w with _ => _ end = match ?d2 w with _ => _ end =>
      assert (D : d1 = d2); [ | now rewrite D ]
  end.
  simpl in I.
  repeat (destruct I as [I | I]; [ inversion I; subst; clear I | ]);
    [ same_arguments A .. | contradiction ].
Qed.

End Defaults.

(** ** The implemented operations *)

Section Operations.
Context `{Outside} `{JsEngine}.
Local Open Scope client_scope.

Lemma readable_get error p :
  readable error -> exists v, js_get error p = Return v.
Proof.
  intros [message M]; destruct error; simpl in *; try discriminate; eauto.
Qed.

Lemma returns_ret {A : Type} (a : A) w : returns (ret a) w.
Proof. now exists a, w. Qed.

Lemma returns_log label error w : returns (log_error label error) w.
Proof. eexists _, _; reflexivity. Qed.

Lemma returns_clock w : returns clock w.
Proof. eexists _, _; reflexivity. Qed.

Lemma returns_get error p w :
  readable error -> returns (lift (js_get error p)) w.
Proof.
  intros R; destruct (readable_get error p R) as [v V].
  exists v, w; unfold lift; now rewrite V.
Qed.

Lemma returns_bind {A B : Type} (m : ClientM A) (k : A -> ClientM B) w :
  returns m w -> (forall a w1, returns (k a) w1) -> returns (bind m k) w.
Proof.
  intros (a & w1 & M) K. destruct (K a w1) as (b & w2 & E).
  exists b, w2; unfold bind; now rewrite M.
Qed.

Lemma returns_try_catch {A : Type} (body : ClientM A) handler w :
  guarded w body ->
  (forall error, readable error -> forall w1, returns (handler error) w1) ->
  returns (try_catch body handler) w.
Proof.
  intros G K; unfold returns, try_catch.
  destruct (body w) as [[a | error] w1] eqn:E; [ eauto | ].
  apply K. now apply (G _ _ E).
Qed.

Lemma guarded_contained {A : Type} (m : ClientM A) w :
  contained m -> guarded w m.
Proof. intros C error w' E; apply worded_readable; eapply C; eauto. Qed.

Lemma guarded_bind_await {A : Type} endpoint params (k : JsValue -> ClientM A) w :
  rejections_readable w ->
  (forall response, contained (k response)) ->
  guarded w (bind (await endpoint params) k).
Proof.
  intros R K error w'; unfold bind, await.
  destruct (remote endpoint params w) as [[response | reason] w1] eqn:E.
  - intros T. apply worded_readable. eapply K; eauto.
  - intros [= <- <-]. eapply R; eauto.
Qed.

Lemma guarded_bind_inert {A B : Type} (m : ClientM A) (k : A -> ClientM B) w :
  inert m -> (forall a, guarded w (k a)) -> guarded w (bind m k).
Proof.
  intros [C S] K error w'; unfold bind.
  specialize (S w). destruct (m w) as [[a | e] w1] eqn:E; simpl in S; subst w1.
  - apply K.
  - intros [= <- <-]. apply worded_readable. eapply C; eauto.
Qed.

Lemma inert_ret {A : Type} (a : A) : inert (ret a).
Proof. split; [ apply contained_ret | reflexivity ]. Qed.

Lemma inert_lift {A : Type} (e : Exc A) : sound e -> inert (lift e).
Proof. split; [ now apply contained_lift | reflexivity ]. Qed.

Lemma inert_bind {A B : Type} (m : ClientM A) (k : A -> ClientM B) :
  inert m -> (forall a, inert (k a)) -> inert (bind m k).
Proof.
  intros [C S] K; split.
  - apply contained_bind; [ exact C | intros a; apply K ].
  - intros w; unfold bind. specialize (S w).
    destruct (m w) as [[a | e] w1]; simpl in S; subst w1; [ apply K | reflexivity ].
Qed.

Ltac inert :=
  repeat first
    [ apply inert_ret
    | apply inert_lift; solve [auto with contained]
    | apply inert_bind; intros
    | match goal with
      | |- inert (if ?b then _ else _) => destruct b
      end ].

Ltac guarded :=
  cbv zeta;
  repeat first
    [ apply guarded_bind_await; [ assumption | intros; contained ]
    | apply guarded_bind_inert; [ solve [inert] | intros ] ].

Ltac returning :=
  repeat first
    [ apply returns_ret
    | apply returns_log
    | apply returns_clock
    | apply returns_get; assumption
    | apply returns_bind; [ | intros ] ].

Ltac unfold_operations :=
  unfold createSpreadsheet, getSpreadsheet, updateValues, appendValues,
    getValues, clearValues, addSheet, deleteSheet, listSpreadsheets,
    deleteSpreadsheet, shareSpreadsheet, searchSpreadsheets, formatCells,
    verifyConnection.

Variable googleSheets : GoogleSheetsClient.

(** An operation of the client throws only when its own handler cannot
    read the error it caught. *)
Lemma methods_return w :
  rejections_readable w ->
  Forall (fun entry => forall args, returns (snd entry args) w)
         (methods googleSheets).
Proof.
  intros R. unfold methods.
  repeat (apply List.Forall_cons;
          [ intros args; simpl; unfold_operations;
            apply returns_try_catch;
            [ guarded | intros error E w1; returning ]
          | ]).
  constructor.
Qed.

Lemma case_method tool method keys :
  assoc tool cases = Some (method, keys) ->
  method = "writeToSheet" \/ exists f, assoc method (methods googleSheets) = Some f.
Proof.
  intros E. apply assoc_In in E. simpl in E.
  repeat (destruct E as [E | E];
          [ inversion E; subst; clear E; first [ now left | right; eexists; reflexivity ] | ]).
  contradiction.
Qed.

(** X1. A tool whose operation the client defines never answers with the
    failure flag as long as the rejections of the remote service can be
    read (are neither [null] nor [undefined]): whether the service resolves
    or rejects, and whatever the arguments, the envelope wraps a result. *)
Theorem implemented_tools_never_flag tool method keys arguments w :
  assoc tool cases = Some (method, keys) ->
  method <> "writeToSheet" ->
  rejections_readable w ->
  exists result w',
    handleCall googleSheets
      {| params_name := tool; params_arguments := arguments |} w
    = (Return (respond result), w').
Proof.
  intros C N R.
  destruct (case_method _ _ _ C) as [-> | [f F]]; [ contradiction | ].
  pose proof (methods_return w R) as M.
  rewrite List.Forall_forall in M.
  destruct (M _ (assoc_In _ _ _ F) (map (arg (default ∅ arguments)) keys))
    as (result & w' & E); simpl in E.
  exists result, w'. apply handleCall_returned.
  rewrite (dispatch_known googleSheets
             {| params_name := tool; params_arguments := arguments |}
             method keys C); simpl.
  unfold bind, invoke. now rewrite F, E.
Qed.

Ltac enter :=
  unfold handleCall, try_catch, dispatch; simpl;
  unfold bind, invoke; simpl; unfold param; simpl;
  unfold_operations;
  unfold try_catch, bind, await, lift, log_error, ret, clock.

Ltac settle :=
  repeat match goal with
         | |- context [match js_get ?v ?p with _ => _ end] =>
             destruct (js_get v p)
         | |- context [match js_get_opt ?v ?p with _ => _ end] =>
             destruct (js_get_opt v p)
         | |- context [match js_to_string ?v with _ => _ end] =>
             destruct (js_to_string v)
         end;
  simpl.

(** X2. Each tool other than [create], [search] and [write_to_sheet] sends
    exactly one request, to its own endpoint, whatever the arguments: after
    the call the world is the one that request left, but for at most two
    lines on the error console. Nothing is validated first and nothing
    retried. *)
Theorem one_request_per_call tool endpoint arguments w :
  In (tool, endpoint) endpoints ->
  exists params,
    logged (snd (remote endpoint params w))
           (snd (handleCall googleSheets
                   {| params_name := tool; params_arguments := arguments |} w)).
Proof.
  intros I. simpl in I.
  repeat (destruct I as [I | I];
          [ inversion I; subst; clear I; enter;
            lazymatch goal with
            | |- context [remote ?e (JObject ?l) w] =>
                exists (JObject l);
                destruct (remote e (JObject l) w) as [[response | reason] w1]
            end;
            settle; unfold logged; eauto 10
          | ]).
  contradiction.
Qed.




(** X3. A tool name outside the catalogue is answered without any request:
    the text is the SDK's method-not-found message behind the fixed prefix,
    and the only effect is one line on the error console. *)
Theorem unknown_tool_sends_nothing name arguments w :
  ~ In name (map Tool.name tools) ->
  handleCall googleSheets
    {| params_name := name; params_arguments := arguments |} w
  = (Return
       {| content :=
            [ {| type := "text";
                 text := Some ("Google Sheets API error: MCP error -32601: Unknown tool: "
                               +:+ name) |} ];
          isError := Some true |},
     console_error ("Error executing tool " +:+ name +:+ ":")
       (McpError MethodNotFound ("Unknown tool: " +:+ name)) w).
Proof.
  intros N.
  apply (handleCall_caught googleSheets
           {| params_name := name; params_arguments := arguments |} w
           (McpError MethodNotFound ("Unknown tool: " +:+ name)) w
           ("MCP error -32601: Unknown tool: " +:+ name)).
  - now rewrite dispatch_unknown.
  - reflexivity.
Qed.

(** X4. The eight forwarding tools pass the spreadsheet id they were given
    on to the service, and hand back the [data] of its response untouched:
    the text of the envelope is that data serialized, and the world is the
    one the request left. *)
Theorem response_data_forwarded tool endpoint arguments w :
  In (tool, endpoint) forwarding ->
  exists params,
    js_get params "spreadsheetId"
    = Return (arg (default ∅ arguments) "spreadsheetId")
    /\ forall response w1 data,
         remote endpoint params w = (Resolved response, w1) ->
         js_get response "data" = Return data ->
         handleCall googleSheets
           {| params_name := tool; params_arguments := arguments |} w
         = (Return (respond data), w1).
Proof.
  intros I. simpl in I.
  repeat (destruct I as [I | I];
          [ inversion I; subst; clear I; enter;
            lazymatch goal with
            | |- context [remote ?e (JObject ?l) w] => exists (JObject l)
            end;
            split; [ reflexivity | ];
            intros response w1 data R D; rewrite R, D; reflexivity
          | ]).
  contradiction.
Qed.

(** X5. The catalogue and the switch agree: they list the same tool names
    in the same order, the keys a case reads off the arguments are the
    properties its descriptor declares, in order, and [writeToSheet] is the
    only method a case names that the client does not define. *)
Theorem catalogue_matches_switch :
  map (fun c => (fst c, snd (snd c))) cases
  = map (fun d => (Tool.name d, declared_in (Tool.inputSchema d))) tools
  /\ Forall (fun c => fst (snd c) <> "writeToSheet" ->
                      exists f, assoc (fst (snd c)) (methods googleSheets) = Some f)
            cases.
Proof.
  split; [ reflexivity | ].
  unfold cases.
  repeat (apply List.Forall_cons;
          [ simpl; intros N; first [ eexists; reflexivity | contradiction ] | ]).
  constructor.
Qed.

Lemma stringify_object props : exists t, JSON_stringify (JObject props) = Some t.
Proof.
  unfold JSON_stringify; simpl.
  destruct (omap _ props); eexists; reflexivity.
Qed.

(** What a composing tool wraps is an object. *)
Lemma composed_object tool arguments w envelope w' :
  In tool composing ->
  dispatch googleSheets
    {| params_name := tool; params_arguments := arguments |} w
  = (Return envelope, w') ->
  exists props, envelope = respond (JObject props).
Proof.
  intros I. simpl in I.
  repeat (destruct I as [I | I];
          [ subst; unfold dispatch; simpl;
            unfold bind, invoke; simpl; unfold param; simpl;
            unfold_operations;
            unfold try_catch, bind, await, lift, log_error, ret, clock;
            repeat match goal with
                   | |- context [if ?b then _ else _] => destruct b
                   | |- context [remote ?e ?p w] =>
                       destruct (remote e p w) as [[response | reason] w1]
                   | |- context [match js_get ?v ?p with _ => _ end] =>
                       destruct (js_get v p)
                   | |- context [match js_get_opt ?v ?p with _ => _ end] =>
                       destruct (js_get_opt v p)
                   | |- context [match js_map ?c ?v ?f with _ => _ end] =>
                       destruct (js_map c v f)
                   | |- context [match js_to_string ?v with _ => _ end] =>
                       destruct (js_to_string v)
                   | |- context [match js_gt_zero ?v with _ => _ end] =>
                       destruct (js_gt_zero v) as [[] | ]
                   end;
            simpl; intros E; inversion E; eexists; reflexivity
          | ]).
  contradiction.
Qed.

(** X6. The six tools that build their own payload always answer with a
    text: the single block of the envelope carries a string whatever the
    service does. *)
Theorem composed_payload_has_text tool arguments w :
  In tool composing ->
  exists t isError' w',
    handleCall googleSheets
      {| params_name := tool; params_arguments := arguments |} w
    = (Return {| content := [ {| type := "text"; text := Some t |} ];
                 isError := isError' |}, w').
Proof.
  intros I.
  set (request := {| params_name := tool; params_arguments := arguments |}).
  destruct (dispatch googleSheets request w) as [[envelope | error] w1] eqn:E.
  - destruct (composed_object _ _ _ _ _ I E) as [props ->].
    destruct (stringify_object props) as [t T].
    exists t, None, w1. rewrite (handleCall_returned _ _ _ _ _ E).
    unfold respond. now rewrite T.
  - destruct (dispatch_contained googleSheets request _ _ _ E) as [message M].
    eexists _, _, _. rewrite (handleCall_caught _ _ _ _ _ _ E M). reflexivity.
Qed.

Lemma arguments_unread (args : gmap string JsValue) key value keys :
  ~ In key keys ->
  map (arg (<[key := value]> args)) keys = map (arg args) keys.
Proof.
  induction keys as [| k keys IH]; simpl; [ reflexivity | ].
  intros N. rewrite IH by tauto.
  unfold arg. rewrite lookup_insert_ne by (intros ->; tauto). reflexivity.
Qed.

(** X7. An argument the case of the tool does not read makes no
    difference: the call with it and the call without it end in the same
    envelope and the same world. Undeclared arguments are ignored, not
    refused. *)
Theorem unread_argument_ignored tool key value (args : gmap string JsValue) w :
  ~ In key (keys_read tool) ->
  handleCall googleSheets
    {| params_name := tool;
       params_arguments := Some (<[key := value]> args) |} w
  = handleCall googleSheets
      {| params_name := tool; params_arguments := Some args |} w.
Proof.
  intros N. unfold handleCall, try_catch, dispatch, keys_read in *.
  cbn [params_name params_arguments].
  destruct (assoc tool cases) as [[method keys] |]; [ | reflexivity ].
  change (default ∅ (Some (<[key := value]> args))) with (<[key := value]> args).
  change (default ∅ (Some args)) with args.
  now rewrite arguments_unread.
Qed.

Lemma dispatch_create arguments :
  dispatch googleSheets
    {| params_name := "google_sheets_create"; params_arguments := arguments |}
  = bind (createSpreadsheet (arg (default ∅ arguments) "title")
                            (arg (default ∅ arguments) "sheets"))
         (fun result => ret (respond result)).
Proof. reflexivity. Qed.

(** X8. [create] called with a single sheet name as a string, where an
    array is declared, is neither refused nor coerced: no request is sent,
    no spreadsheet is created, and the envelope, unflagged, carries the
    engine's complaint that [sheets.map] is no function. *)
Theorem create_with_string_for_sheets arguments s w :
  arg (default ∅ arguments) "sheets" = JString s ->
  s <> "" ->
  num_pos (num_of_Z (Z.of_nat (String.length s))) = true ->
  handleCall googleSheets
    {| params_name := "google_sheets_create"; params_arguments := arguments |} w
  = (Return
       (respond
          (JObject [("error",
                     JString (typeErrorMessage (NotAFunction "sheets.map")))])),
     console_error "Error creating spreadsheet:"
       (TypeError (NotAFunction "sheets.map")) w).
Proof.
  intros S N P. apply handleCall_returned.
  rewrite dispatch_create, S.
  unfold createSpreadsheet, try_catch, bind, lift, log_error, ret; simpl.
  apply String.eqb_neq in N. rewrite N; simpl. now rewrite P.
Qed.

(** X9. [create] called with an array of sheet names asks for one sheet
    per name, in order, each under its title (and for none when the array
    is empty); when the service answers with an id that can be printed the
    payload returns the id, the title, the data as it came, and the edit
    URL of that id. *)
Theorem create_with_sheet_names arguments names w response w1 data id printed :
  arg (default ∅ arguments) "sheets" = JArray names ->
  num_pos (num_of_Z (Z.of_nat (length names)))
  = negb (Nat.eqb (length names) 0) ->
  remote spreadsheets_create
    (JObject
       [("requestBody",
         JObject
           (("properties",
             JObject [("title", arg (default ∅ arguments) "title")])
            :: match names with
               | [] => []
               | _ =>
                   [("sheets",
                     JArray
                       (map (fun sheetName =>
                               JObject [("properties",
                                         JObject [("title", sheetName)])])
                            names))]
               end))]) w
  = (Resolved response, w1) ->
  js_get response "data" = Return data ->
  js_get data "spreadsheetId" = Return id ->
  js_to_string id = Return printed ->
  handleCall googleSheets
    {| params_name := "google_sheets_create"; params_arguments := arguments |} w
  = (Return
       (respond
          (JObject
             [("spreadsheetId", id);
              ("title", arg (default ∅ arguments) "title");
              ("url", JString ("https://docs.google.com/spreadsheets/d/"
                               +:+ printed +:+ "/edit"));
              ("spreadsheet", data)])),
     w1).
Proof.
  intros S P R D I T. apply handleCall_returned.
  rewrite dispatch_create, S.
  unfold createSpreadsheet, try_catch, bind, await, lift, ret; simpl.
  rewrite P. destruct names as [| n names]; simpl in *;
    now rewrite R, D, I, T.
Qed.

(** X10. [create] called without [sheets] sends the title alone, and
    answers as above. *)
Theorem create_without_sheets arguments w response w1 data id printed :
  arg (default ∅ arguments) "sheets" = JUndefined ->
  remote spreadsheets_create
    (JObject
       [("requestBody",
         JObject
           [("properties",
             JObject [("title", arg (default ∅ arguments) "title")])])]) w
  = (Resolved response, w1) ->
  js_get response "data" = Return data ->
  js_get data "spreadsheetId" = Return id ->
  js_to_string id = Return printed ->
  handleCall googleSheets
    {| params_name := "google_sheets_create"; params_arguments := arguments |} w
  = (Return
       (respond
          (JObject
             [("spreadsheetId", id);
              ("title", arg (default ∅ arguments) "title");
              ("url", JString ("https://docs.google.com/spreadsheets/d/"
                               +:+ printed +:+ "/edit"));
              ("spreadsheet", data)])),
     w1).
Proof.
  intros S R D I T. apply handleCall_returned.
  rewrite dispatch_create, S.
  unfold createSpreadsheet, try_catch, bind, await, lift, ret; simpl.
  now rewrite R, D, I, T.
Qed.

(** X16. A defaulted argument reaches the service as it was given: the
    default takes the place of [undefined] only. An explicit [null],
    [false], zero or empty string is forwarded, not defaulted. *)
Theorem defaulted_argument_forwarded tool endpoint key value arguments w :
  In (tool, endpoint, key, value) defaulted_at_top ->
  exists params,
    js_get params key
    = Return (or_default (arg (default ∅ arguments) key) value)
    /\ logged (snd (remote endpoint params w))
              (snd (handleCall googleSheets
                      {| params_name := tool; params_arguments := arguments |}
                      w)).
Proof.
  intros I. simpl in I.
  repeat (destruct I as [I | I];
          [ inversion I; subst; clear I; enter;
            lazymatch goal with
            | |- context [remote ?e (JObject ?l) w] =>
                exists (JObject l); split; [ reflexivity | ];
                destruct (remote e (JObject l) w) as [[response | reason] w1]
            end;
            settle; unfold logged; eauto 10
          | ]).
  contradiction.
Qed.

End Operations.

(** ** Object spread in [formatCells] *)

Section Spread.
Context `{JsNumber}.









End Spread.

(** ** Start-up *)

Section StartupFacts.
Context `{Node} `{JsEngine}.

Lemma or_else_absorb a b : or_else (or_else a b) b = or_else a b.
Proof.
  unfold or_else. destruct (truthy a) eqn:A; [ now rewrite A | ].
  now destruct (truthy b).
Qed.

Lemma truthy_default v : truthy v = true -> truthy (Some (default "" v)) = true.
Proof. now destruct v. Qed.

(** The project id the constructor settles on is set as soon as the one
    it starts from is. *)
Lemma projectId_kept a :
  truthy a = true ->
  truthy (Some (default "" (or_else a (Some "")))) = true.
Proof. intros A. unfold or_else. rewrite A. now apply truthy_default. Qed.

(** X12. A client that the constructor returns always holds a credential:
    an API key, a service account or an OAuth2 client. The answer
    "Unknown" of [getAuthType] cannot come from a constructed client. *)
Theorem constructed_auth_known options env h this h' :
  construct options env h = (Return this, h') ->
  auth (handle this) <> NoAuth /\ getAuthType (handle this) <> "Unknown".
Proof.
  unfold construct; cbv zeta.
  destruct (negb (truthy (Some _)) && negb (Options.isOAuth options));
    [ discriminate | ].
  destruct (truthy (or_else (Options.apiKey options) (GOOGLE_API_KEY env)));
    destruct (truthy (or_else (Options.serviceAccountJson options)
                              (GOOGLE_APPLICATION_CREDENTIALS_JSON env)));
    destruct (truthy (or_else (Options.serviceAccountPath options)
                              (GOOGLE_APPLICATION_CREDENTIALS env)));
    destruct (all_three _ _ _); cbn [negb andb];
    try discriminate;
    repeat match goal with
           | |- context [randomHex ?x] => destruct (randomHex x)
           | |- context [writeFileSync ?p ?c ?x] =>
               destruct (writeFileSync p c x) as [[[] | error] ?]
           | |- context [match js_get ?v ?p with _ => _ end] =>
               destruct (js_get v p)
           | |- context [match js_to_string ?v with _ => _ end] =>
               destruct (js_to_string v)
           | |- context [if ?b then _ else _] => destruct b
           end;
    intros E; inversion E; subst; unfold getAuthType; simpl;
    split; discriminate.
Qed.

(** X13. An API key takes precedence over every other credential: with a
    key set (and the project check passed) the client is built on the key
    without touching a file, whatever service-account path, service-account
    JSON or OAuth settings are present as well. Only three lines are
    printed. *)
Theorem api_key_takes_precedence options env h key :
  or_else (Options.apiKey options) (GOOGLE_API_KEY env) = Some key ->
  key <> "" ->
  truthy (or_else (or_else (Options.projectId options)
                           (GOOGLE_CLOUD_PROJECT_ID env)) (Some ""))
  || Options.isOAuth options = true ->
  let project :=
    default "" (or_else (or_else (Options.projectId options)
                                 (GOOGLE_CLOUD_PROJECT_ID env)) (Some "")) in
  construct options env h
  = (Return {| handle := {| projectId := project; auth := ApiKey key |};
               tempFilePath := None |},
     log "Google Sheets client initialized"
       (log "Using API key authentication"
          (log ("Using project ID: " +:+ project
                +:+ " for Google Sheets API false") h))).
Proof.
  intros K N P project. unfold construct; cbv zeta. fold project.
  assert (T : truthy (Some project)
              = truthy (or_else (or_else (Options.projectId options)
                                         (GOOGLE_CLOUD_PROJECT_ID env))
                                (Some ""))).
  { unfold project.
    destruct (or_else (or_else _ _) (Some "")); reflexivity. }
  rewrite T.
  destruct (truthy (or_else (or_else _ _) (Some "")));
    destruct (Options.isOAuth options); try discriminate; cbn [negb andb];
    rewrite K; apply String.eqb_neq in N;
    unfold truthy; rewrite N; reflexivity.
Qed.

Lemma startup_outcome values env h error h' :
  startup values env h = (Throw error, h') ->
  error = new_Error
            "Either GOOGLE_APPLICATION_CREDENTIALS, GOOGLE_APPLICATION_CREDENTIALS_JSON, GOOGLE_API_KEY, or OAuth credentials are required"
  \/ error = new_Error
               "GOOGLE_CLOUD_PROJECT_ID environment variable is required".
Proof.
  unfold startup; cbv zeta.
  destruct (_ && _ && _ && _); [ intros [= <- _]; tauto | ].
  destruct (negb (truthy (GOOGLE_CLOUD_PROJECT_ID _)) && _);
    [ intros [= <- _]; tauto | discriminate ].
Qed.

(** What the checks of [index.ts] establish when they pass. *)
Lemma startup_passed values env h s h' :
  startup values env h = (Return s, h') ->
  s = resolve values env
  /\ negb (truthy (GOOGLE_APPLICATION_CREDENTIALS s))
     && negb (truthy (GOOGLE_APPLICATION_CREDENTIALS_JSON s))
     && negb (truthy (GOOGLE_API_KEY s))
     && negb (oauth_complete s) = false
  /\ negb (truthy (GOOGLE_CLOUD_PROJECT_ID s)) && negb (oauth_complete s)
     = false.
Proof.
  unfold startup; cbv zeta.
  destruct (_ && _ && _ && _) eqn:G1; [ discriminate | ].
  destruct (negb (truthy (GOOGLE_CLOUD_PROJECT_ID _)) && _) eqn:G2;
    [ discriminate | ].
  intros [= <- _]. auto.
Qed.

(** X14. Start-up fails in five ways only: on the two checks at the top of
    [index.ts], on a service-account key file that is not there, on a
    temporary credentials file that cannot be written, or on a
    [TypeError] of the engine while reporting the latter. The two
    configuration errors of the client constructor never surface: the
    checks before it have already passed. *)
Theorem boot_failures values env h error h' :
  boot values env h = (Throw error, h') ->
  error = new_Error
            "Either GOOGLE_APPLICATION_CREDENTIALS, GOOGLE_APPLICATION_CREDENTIALS_JSON, GOOGLE_API_KEY, or OAuth credentials are required"
  \/ error = new_Error
               "GOOGLE_CLOUD_PROJECT_ID environment variable is required"
  \/ (exists path,
        error = new_Error ("Service account key file not found at: " +:+ path))
  \/ (exists message,
        error = new_Error ("Failed to create temporary credentials file: "
                           +:+ message))
  \/ (exists kind, error = TypeError kind).
Proof.
  unfold boot.
  destruct (startup values env h) as [[s | thrown] h0] eqn:S;
    [ | intros [= <- <-]; destruct (startup_outcome _ _ _ _ _ S) as [-> | ->];
        tauto ].
  destruct (startup_passed _ _ _ _ _ S) as (-> & G1 & G2). clear S.
  revert G1 G2.
  unfold GoogleSheetsServer, construct, oauth_complete, resolve;
    cbn [GOOGLE_APPLICATION_CREDENTIALS GOOGLE_APPLICATION_CREDENTIALS_JSON
         GOOGLE_API_KEY GOOGLE_CLOUD_PROJECT_ID client_id client_secret
         refresh_token Options.serviceAccountPath Options.serviceAccountJson
         Options.apiKey Options.projectId Options.oauthClientId
         Options.oauthClientSecret Options.oauthRefreshToken Options.isOAuth];
    cbv zeta.
  rewrite !or_else_absorb.
  set (path := or_else (GOOGLE_APPLICATION_CREDENTIALS values) _).
  set (json := or_else (GOOGLE_APPLICATION_CREDENTIALS_JSON values) _).
  set (key := or_else (GOOGLE_API_KEY values) _).
  set (project := or_else (GOOGLE_CLOUD_PROJECT_ID values) _).
  set (oauth := all_three _ _ _).
  pose proof (projectId_kept project) as P.
  destruct (truthy path); destruct (truthy json); destruct (truthy key);
    destruct oauth; cbn [negb andb]; try discriminate; intros _;
    destruct (truthy project); cbn [negb andb]; try discriminate; intros _;
    try (rewrite P by reflexivity); cbn [negb andb];
    try rewrite Bool.andb_false_r;
    repeat match goal with
           | |- context [randomHex ?x] => destruct (randomHex x)
           | |- context [writeFileSync ?p ?c ?x] =>
               destruct (writeFileSync p c x) as [[[] | thrown] ?]
           | |- context [match js_get ?v ?p with _ => _ end] =>
               let G := fresh "G" in
               destruct (js_get v p) as [message | raised] eqn:G
           | |- context [match js_to_string ?v with _ => _ end] =>
               let T := fresh "T" in
               destruct (js_to_string v) as [printed | raised] eqn:T
           | |- context [if negb (existsSync ?p ?x) then _ else _] =>
               destruct (existsSync p x); cbn [negb]
           end;
    try discriminate;
    intros [= <- <-]; eauto 10.
  all: first [ apply js_to_string_throws in T; subst; eauto 10
             | destruct thrown; simpl in G; inversion G; eauto 10 ].
Qed.

(** X15. [cleanup] removes nothing but the temporary file the constructor
    wrote itself: on a client built from an API key, or without
    service-account JSON, it is a no-op, so a service-account key file
    given by path is never deleted. *)
Theorem cleanup_spares_key_file options env h this h1 :
  construct options env h = (Return this, h1) ->
  truthy (or_else (Options.apiKey options) (GOOGLE_API_KEY env)) = true
  \/ truthy (or_else (Options.serviceAccountJson options)
                     (GOOGLE_APPLICATION_CREDENTIALS_JSON env)) = false ->
  tempFilePath this = None
  /\ forall h2, cleanup this h2 = (Return this, h2).
Proof.
  intros E C.
  assert (T : tempFilePath this = None).
  { revert E. unfold construct; cbv zeta.
    destruct (negb (truthy (Some _)) && negb (Options.isOAuth options));
      [ discriminate | ].
    destruct (_ && _ && _ && _); [ discriminate | ].
    destruct (truthy (or_else (Options.apiKey options) (GOOGLE_API_KEY env)));
      [ now intros [= <- _] | ].
    destruct C as [C | C]; [ discriminate | ]. rewrite C.
    repeat match goal with
           | |- context [if ?b then _ else _] => destruct b
           end;
      try discriminate; now intros [= <- _]. }
  split; [ exact T | ].
  intros h2. unfold cleanup. now rewrite T.
Qed.

End StartupFacts.

(** ** The gateway at work on the sample service *)

Import Sample.




(** C5, as stated, fails. The failed call of [write_to_sheet] is reported
    under the fixed prefix, and neither the tool nor the client method
    heads the text. *)
Lemma failure_text_lacks_operation :
  exists error w' t,
    dispatch client write_clearing start = (Throw error, w')
    /\ fst (handleCall client write_clearing start)
       = Return {| content := [ {| type := "text"; text := Some t |} ];
                   isError := Some true |}
    /\ t = "Google Sheets API error: this.googleSheets.writeToSheet is not a function"
    /\ String.prefix "write_to_sheet: " t = false
    /\ String.prefix "writeToSheet: " t = false.
Proof.
  eexists _, _, _. split; [ reflexivity | ].
  split; [ vm_compute; reflexivity | ].
  repeat split.
Qed.

Lemma raised_call_envelope_witness :
  dispatch client (call "no_such_tool" []) start
  = (Throw (McpError MethodNotFound "Unknown tool: no_such_tool"), start)
  /\ exists message,
       js_get (McpError MethodNotFound "Unknown tool: no_such_tool") "message"
       = Return (JString message)
       /\ handleCall client (call "no_such_tool" []) start
          = (Return
               {| content :=
                    [ {| type := "text";
                         text := Some ("Google Sheets API error: "
                                       +:+ message) |} ];
                  isError := Some true |},
             console_error "Error executing tool no_such_tool:"
               (McpError MethodNotFound "Unknown tool: no_such_tool") start).
Proof.
  assert (D : dispatch client (call "no_such_tool" []) start
              = (Throw (McpError MethodNotFound "Unknown tool: no_such_tool"),
                 start)) by reflexivity.
  split; [ exact D | ].
  exact (raised_call_envelope client _ _ _ _ D).
Defined.

Lemma unknown_tool_reported_witness :
  ~ In "no_such_tool" (map Tool.name tools)
  /\ exists t w',
       handleCall client
         {| params_name := "no_such_tool"; params_arguments := None |} start
       = (Return {| content := [ {| type := "text"; text := Some t |} ];
                    isError := Some true |}, w')
       /\ mentions "no_such_tool" t.
Proof.
  assert (N : ~ In "no_such_tool" (map Tool.name tools)).
  { simpl. intuition discriminate. }
  split; [ exact N | ].
  exact (unknown_tool_reported client "no_such_tool" None start N).
Defined.

Lemma omitted_argument_is_default_witness :
  In ("google_sheets_update_values", "valueInputOption",
      JString "USER_ENTERED") defaulted_arguments
  /\ (list_to_map [("spreadsheetId", JString "S");
                   ("range", JString "Sheet1");
                   ("values", JArray [JArray [JString "new"]])]
        : gmap string JsValue) !! "valueInputOption" = None
  /\ handleCall client
       (call "google_sheets_update_values"
          [("spreadsheetId", JString "S");
           ("range", JString "Sheet1");
           ("values", JArray [JArray [JString "new"]])]) start
     = handleCall client
         {| params_name := "google_sheets_update_values";
            params_arguments :=
              Some (<["valueInputOption" := JString "USER_ENTERED"]>
                      (list_to_map
                         [("spreadsheetId", JString "S");
                          ("range", JString "Sheet1");
                          ("values", JArray [JArray [JString "new"]])])) |}
         start.
Proof.
  assert (I : In ("google_sheets_update_values", "valueInputOption",
                  JString "USER_ENTERED") defaulted_arguments)
    by (left; reflexivity).
  assert (A : (list_to_map [("spreadsheetId", JString "S");
                            ("range", JString "Sheet1");
                            ("values", JArray [JArray [JString "new"]])]
                 : gmap string JsValue) !! "valueInputOption" = None)
    by (vm_compute; reflexivity).
  split; [ exact I | split; [ exact A | ] ].
  exact (omitted_argument_is_default client _ _ _ _ start I A).
Defined.

(** ** Further runs on the sample service and the sample host *)

(** The sample service rejects with error objects only. *)
Lemma serve_rejections_readable w : rejections_readable w.
Proof.
  intros endpoint params reason w' E. simpl in E. unfold serve in E.
  destruct endpoint;
    repeat match type of E with
           | context [if ?b then _ else _] => destruct b
           end;
    inversion E; eexists; reflexivity.
Qed.

Lemma implemented_tools_never_flag_witness :
  assoc "google_sheets_delete" cases
  = Some ("deleteSpreadsheet", ["spreadsheetId"])
  /\ "deleteSpreadsheet" <> "writeToSheet"
  /\ rejections_readable start
  /\ exists result w',
       handleCall client
         {| params_name := "google_sheets_delete"; params_arguments := None |}
         start
       = (Return (respond result), w').
Proof.
  assert (C : assoc "google_sheets_delete" cases
              = Some ("deleteSpreadsheet", ["spreadsheetId"])) by reflexivity.
  assert (N : "deleteSpreadsheet" <> "writeToSheet") by discriminate.
  split; [ exact C | split; [ exact N | split;
    [ exact (serve_rejections_readable start) | ] ] ].
  exact (implemented_tools_never_flag client _ _ _ None start C N
           (serve_rejections_readable start)).
Defined.

Lemma one_request_per_call_witness :
  In ("google_sheets_clear_values", spreadsheets_values_clear) endpoints
  /\ exists params,
       logged (snd (remote spreadsheets_values_clear params start))
              (snd (handleCall client
                      (call "google_sheets_clear_values"
                         [("spreadsheetId", JString "S");
                          ("range", JString "Sheet1")]) start)).
Proof.
  assert (I : In ("google_sheets_clear_values", spreadsheets_values_clear)
                 endpoints) by (simpl; tauto).
  split; [ exact I | ].
  exact (one_request_per_call client _ _ _ start I).
Defined.

Lemma unknown_tool_sends_nothing_witness :
  ~ In "no_such_tool" (map Tool.name tools)
  /\ handleCall client (call "no_such_tool" []) start
     = (Return
          {| content :=
               [ {| type := "text";
                    text := Some ("Google Sheets API error: MCP error -32601: Unknown tool: "
                                  +:+ "no_such_tool") |} ];
             isError := Some true |},
        console_error "Error executing tool no_such_tool:"
          (McpError MethodNotFound "Unknown tool: no_such_tool") start).
Proof.
  assert (N : ~ In "no_such_tool" (map Tool.name tools)).
  { simpl. intuition discriminate. }
  split; [ exact N | ].
  exact (unknown_tool_sends_nothing client "no_such_tool" _ start N).
Defined.

Lemma response_data_forwarded_witness :
  In ("google_sheets_get_values", spreadsheets_values_get) forwarding
  /\ exists params,
       js_get params "spreadsheetId" = Return (JString "S")
       /\ forall response w1 data,
            remote spreadsheets_values_get params start = (Resolved response, w1) ->
            js_get response "data" = Return data ->
            handleCall client
              (call "google_sheets_get_values"
                 [("spreadsheetId", JString "S"); ("range", JString "Sheet1")])
              start
            = (Return (respond data), w1).
Proof.
  assert (I : In ("google_sheets_get_values", spreadsheets_values_get)
                 forwarding) by (simpl; tauto).
  split; [ exact I | ].
  exact (response_data_forwarded client _ _
           (Some (list_to_map [("spreadsheetId", JString "S");
                               ("range", JString "Sheet1")])) start I).
Defined.

Lemma composed_payload_has_text_witness :
  In "google_sheets_verify_connection" composing
  /\ exists t isError' w',
       handleCall client (call "google_sheets_verify_connection" []) start
       = (Return {| content := [ {| type := "text"; text := Some t |} ];
                    isError := isError' |}, w').
Proof.
  assert (I : In "google_sheets_verify_connection" composing)
    by (simpl; tauto).
  split; [ exact I | ].
  exact (composed_payload_has_text client _ _ start I).
Defined.

Lemma unread_argument_ignored_witness :
  ~ In "comment" (keys_read "google_sheets_get_values")
  /\ handleCall client
       {| params_name := "google_sheets_get_values";
          params_arguments :=
            Some (<["comment" := JString "please"]>
                    (list_to_map [("spreadsheetId", JString "S");
                                  ("range", JString "Sheet1")])) |} start
     = handleCall client
         {| params_name := "google_sheets_get_values";
            params_arguments :=
              Some (list_to_map [("spreadsheetId", JString "S");
                                 ("range", JString "Sheet1")]) |} start.
Proof.
  assert (N : ~ In "comment" (keys_read "google_sheets_get_values")).
  { simpl. intuition discriminate. }
  split; [ exact N | ].
  exact (unread_argument_ignored client _ _ _ _ start N).
Defined.

Lemma create_with_string_for_sheets_witness :
  arg (list_to_map [("title", JString "Budget"); ("sheets", JString "Q1")])
      "sheets" = JString "Q1"
  /\ "Q1" <> ""
  /\ num_pos (num_of_Z (Z.of_nat (String.length "Q1"))) = true
  /\ handleCall client
       (call "google_sheets_create"
          [("title", JString "Budget"); ("sheets", JString "Q1")]) start
     = (Return
          (respond
             (JObject [("error",
                        JString (typeErrorMessage (NotAFunction "sheets.map")))])),
        console_error "Error creating spreadsheet:"
          (TypeError (NotAFunction "sheets.map")) start).
Proof.
  assert (S : arg (list_to_map [("title", JString "Budget");
                                ("sheets", JString "Q1")]) "sheets"
              = JString "Q1") by reflexivity.
  assert (N : "Q1" <> "") by discriminate.
  assert (P : num_pos (num_of_Z (Z.of_nat (String.length "Q1"))) = true)
    by reflexivity.
  split; [ exact S | split; [ exact N | split; [ exact P | ] ] ].
  exact (create_with_string_for_sheets client
           (Some (list_to_map [("title", JString "Budget");
                               ("sheets", JString "Q1")])) "Q1" start S N P).
Defined.

Lemma create_with_sheet_names_witness :
  let arguments : option (gmap string JsValue) :=
    Some (list_to_map [("title", JString "Budget");
                       ("sheets", JArray [JString "Q1"; JString "Q2"])]) in
  let names := [JString "Q1"; JString "Q2"] in
  exists response w1 data id printed,
    arg (default ∅ arguments) "sheets" = JArray names
    /\ num_pos (num_of_Z (Z.of_nat (length names)))
       = negb (Nat.eqb (length names) 0)
    /\ @remote integers studio spreadsheets_create
         (JObject
            [("requestBody",
              JObject
                [("properties",
                  JObject [("title", arg (default ∅ arguments) "title")]);
                 ("sheets",
                  JArray
                    (map (fun sheetName =>
                            JObject [("properties",
                                      JObject [("title", sheetName)])])
                         names))])]) start
       = (Resolved response, w1)
    /\ js_get response "data" = Return data
    /\ js_get data "spreadsheetId" = Return id
    /\ js_to_string id = Return printed
    /\ @handleCall integers studio v8 client
         {| params_name := "google_sheets_create";
            params_arguments := arguments |} start
       = (Return
            (respond
               (JObject
                  [("spreadsheetId", id);
                   ("title", arg (default ∅ arguments) "title");
                   ("url", JString ("https://docs.google.com/spreadsheets/d/"
                                    +:+ printed +:+ "/edit"));
                   ("spreadsheet", data)])),
          w1).
Proof.
  intros arguments names.
  assert (S : arg (default ∅ arguments) "sheets" = JArray names)
    by reflexivity.
  assert (P : num_pos (num_of_Z (Z.of_nat (length names)))
              = negb (Nat.eqb (length names) 0)) by reflexivity.
  eexists _, _, _, _, _.
  split; [ exact S | split; [ exact P | ] ].
  split; [ reflexivity | split; [ reflexivity | split; [ reflexivity | ] ] ].
  split; [ reflexivity | ].
  exact (@create_with_sheet_names integers studio v8 client arguments names
           start _ _ _ _ _ S P eq_refl eq_refl eq_refl eq_refl).
Defined.

Lemma create_without_sheets_witness :
  let arguments : option (gmap string JsValue) :=
    Some (list_to_map [("title", JString "Budget")]) in
  exists response w1 data id printed,
    arg (default ∅ arguments) "sheets" = JUndefined
    /\ @remote integers studio spreadsheets_create
         (JObject
            [("requestBody",
              JObject
                [("properties",
                  JObject [("title", arg (default ∅ arguments) "title")])])])
         start
       = (Resolved response, w1)
    /\ js_get response "data" = Return data
    /\ js_get data "spreadsheetId" = Return id
    /\ js_to_string id = Return printed
    /\ @handleCall integers studio v8 client
         {| params_name := "google_sheets_create";
            params_arguments := arguments |} start
       = (Return
            (respond
               (JObject
                  [("spreadsheetId", id);
                   ("title", arg (default ∅ arguments) "title");
                   ("url", JString ("https://docs.google.com/spreadsheets/d/"
                                    +:+ printed +:+ "/edit"));
                   ("spreadsheet", data)])),
          w1).
Proof.
  intros arguments.
  assert (S : arg (default ∅ arguments) "sheets" = JUndefined)
    by reflexivity.
  eexists _, _, _, _, _.
  split; [ exact S | ].
  split; [ reflexivity | split; [ reflexivity | split; [ reflexivity | ] ] ].
  split; [ reflexivity | ].
  exact (@create_without_sheets integers studio v8 client arguments
           start _ _ _ _ _ S eq_refl eq_refl eq_refl eq_refl).
Defined.


Lemma constructed_auth_known_witness :
  exists this h',
    construct key_file_only nothing laptop = (Return this, h')
    /\ auth (handle this) <> NoAuth
    /\ getAuthType (handle this) <> "Unknown".
Proof.
  eexists _, _.
  assert (E : construct key_file_only nothing laptop
              = (Return {| handle := {| projectId := "demo-project";
                                        auth := GoogleAuth |};
                           tempFilePath := None |},
                 snd (construct key_file_only nothing laptop)))
    by reflexivity.
  split; [ exact E | ].
  exact (constructed_auth_known _ _ _ _ _ E).
Defined.

Lemma api_key_takes_precedence_witness :
  or_else (Options.apiKey key_and_missing_file) (GOOGLE_API_KEY nothing)
  = Some "AIzaSyExample"
  /\ "AIzaSyExample" <> ""
  /\ truthy (or_else (or_else (Options.projectId key_and_missing_file)
                              (GOOGLE_CLOUD_PROJECT_ID nothing)) (Some ""))
     || Options.isOAuth key_and_missing_file = true
  /\ construct key_and_missing_file nothing laptop
     = (Return {| handle := {| projectId := "demo-project";
                               auth := ApiKey "AIzaSyExample" |};
                  tempFilePath := None |},
        log "Google Sheets client initialized"
          (log "Using API key authentication"
             (log "Using project ID: demo-project for Google Sheets API false"
                laptop))).
Proof.
  assert (K : or_else (Options.apiKey key_and_missing_file)
                      (GOOGLE_API_KEY nothing) = Some "AIzaSyExample")
    by reflexivity.
  assert (N : "AIzaSyExample" <> "") by discriminate.
  assert (P : truthy (or_else (or_else (Options.projectId key_and_missing_file)
                                       (GOOGLE_CLOUD_PROJECT_ID nothing))
                              (Some ""))
              || Options.isOAuth key_and_missing_file = true) by reflexivity.
  split; [ exact K | split; [ exact N | split; [ exact P | ] ] ].
  exact (api_key_takes_precedence key_and_missing_file nothing laptop _ K N P).
Defined.

Lemma boot_failures_witness :
  exists error h',
    boot with_missing_file nothing laptop = (Throw error, h')
    /\ error = new_Error "Service account key file not found at: /home/me/gone.json"
    /\ (error = new_Error
                  "Either GOOGLE_APPLICATION_CREDENTIALS, GOOGLE_APPLICATION_CREDENTIALS_JSON, GOOGLE_API_KEY, or OAuth credentials are required"
        \/ error = new_Error
                     "GOOGLE_CLOUD_PROJECT_ID environment variable is required"
        \/ (exists path,
              error = new_Error ("Service account key file not found at: "
                                 +:+ path))
        \/ (exists message,
              error = new_Error ("Failed to create temporary credentials file: "
                                 +:+ message))
        \/ (exists kind, error = TypeError kind)).
Proof.
  eexists _, _.
  assert (E : boot with_missing_file nothing laptop
              = (Throw (new_Error
                   "Service account key file not found at: /home/me/gone.json"),
                 snd (boot with_missing_file nothing laptop)))
    by reflexivity.
  split; [ exact E | split; [ reflexivity | ] ].
  exact (boot_failures _ _ _ _ _ E).
Defined.

Lemma cleanup_spares_key_file_witness :
  exists this h1,
    construct key_file_only nothing laptop = (Return this, h1)
    /\ (truthy (or_else (Options.apiKey key_file_only) (GOOGLE_API_KEY nothing))
        = true
        \/ truthy (or_else (Options.serviceAccountJson key_file_only)
                           (GOOGLE_APPLICATION_CREDENTIALS_JSON nothing))
           = false)
    /\ tempFilePath this = None
    /\ forall h2, cleanup this h2 = (Return this, h2).
Proof.
  eexists _, _.
  assert (E : construct key_file_only nothing laptop
              = (Return {| handle := {| projectId := "demo-project";
                                        auth := GoogleAuth |};
                           tempFilePath := None |},
                 snd (construct key_file_only nothing laptop)))
    by reflexivity.
  assert (C : truthy (or_else (Options.apiKey key_file_only)
                              (GOOGLE_API_KEY nothing)) = true
              \/ truthy (or_else (Options.serviceAccountJson key_file_only)
                                 (GOOGLE_APPLICATION_CREDENTIALS_JSON nothing))
                 = false) by (right; reflexivity).
  split; [ exact E | split; [ exact C | ] ].
  exact (cleanup_spares_key_file _ _ _ _ _ E C).
Defined.

Lemma defaulted_argument_forwarded_witness :
  In ("google_sheets_update_values", spreadsheets_values_update,
      "valueInputOption", JString "USER_ENTERED") defaulted_at_top
  /\ exists params,
       js_get params "valueInputOption" = Return JNull
       /\ logged (snd (remote spreadsheets_values_update params start))
                 (snd (handleCall client
                         (call "google_sheets_update_values"
                            [("spreadsheetId", JString "S");
                             ("range", JString "Sheet1");
                             ("values", JArray [JArray [JString "new"]]);
                             ("valueInputOption", JNull)]) start)).
Proof.
  assert (I : In ("google_sheets_update_values", spreadsheets_values_update,
                  "valueInputOption", JString "USER_ENTERED") defaulted_at_top)
    by (left; reflexivity).
  split; [ exact I | ].
  exact (defaulted_argument_forwarded client _ _ _ _
           (Some (list_to_map [("spreadsheetId", JString "S");
                               ("range", JString "Sheet1");
                               ("values", JArray [JArray [JString "new"]]);
                               ("valueInputOption", JNull)])) start I).
Defined.
